(** * Twitch OAuth login flow of haxgun/valory

    A shallow embedding of [backend/app/routers/auth/twitch.py] and of the
    session provider it depends on ([get_session], as
    [backend/app/db/session.py] defines it).

    The handlers are [async] Python functions that talk to three outside
    parties: the Twitch HTTP endpoints, the SQL database behind an
    [AsyncSession], and the process-wide random generator.  They are
    embedded in a state-and-exception monad over a [World] that holds the
    users table, the objects pending in the session, the trace of every
    outside call made so far and the number of random draws consumed.
    The answers of Twitch, the failures of the database and the output
    of the random generator are parameters. *)

From Stdlib Require Import ZArith String Ascii List Bool Lia.
From stdpp Require Import base option list strings gmap.

Set Warnings "-register-all".

Local Open Scope string_scope.
Local Open Scope list_scope.
Local Open Scope Z_scope.

(** ** Python values

    [response.json()] yields an arbitrary JSON document; the handlers
    subscript it, test its truthiness and pass parts of it on without any
    validation.  [PFloat] carries the 64 bits of the IEEE double. *)

Inductive pyval : Type :=
| PNone
| PBool (b : bool)
| PInt (n : Z)
| PFloat (bits : Z)
| PStr (s : string)
| PList (l : list pyval)
| PDict (d : list (string * pyval)).

(** Exceptions that can leave a handler.  Only [HTTPException] is raised
    by the source itself.  [TypeError], [KeyError], [IndexError] and
    [AttributeError] are raised by the Python operations it applies to
    unvalidated data, [JSONDecodeError] by [response.json()],
    [TooManyRedirects] and [InvalidUrlClientError] by the HTTP client
    while it follows redirects, [SQLAlchemyError] by the session, and
    [ResponseValidationError] by the framework when a route returns a
    value that is not of its declared return type. *)
Inductive exn : Type :=
| HTTPException (status_code : Z) (detail : string)
| TypeError
| KeyError
| IndexError
| AttributeError
| JSONDecodeError
| TooManyRedirects
| InvalidUrlClientError
| SQLAlchemyError
| ResponseValidationError.

Inductive Result (A : Type) : Type :=
| Ok (a : A)
| Raise (e : exn).
Arguments Ok {A} a.
Arguments Raise {A} e.

Definition rbind {A B} (r : Result A) (k : A -> Result B) : Result B :=
  match r with
  | Ok a => k a
  | Raise e => Raise e
  end.

Declare Scope result_scope.
Delimit Scope result_scope with result.
Notation "x <~ r ;; k" := (rbind r (fun x => k))
  (at level 100, r at next level, right associativity) : result_scope.

Module Py.

(** [bool(v)]: the test behind [if v], [not v] and [and]. *)
Definition truthy (v : pyval) : bool :=
  match v with
  | PNone => false
  | PBool b => b
  | PInt n => negb (n =? 0)
  | PFloat bits => negb ((bits =? 0) || (bits =? 2 ^ 63))
  | PStr s => negb (String.eqb s "")
  | PList l => match l with [] => false | _ => true end
  | PDict d => match d with [] => false | _ => true end
  end.

(** [d[key]] on the association list of a dict. *)
Fixpoint lookup (key : string) (d : list (string * pyval)) : option pyval :=
  match d with
  | [] => None
  | (k, v) :: d' => if String.eqb k key then Some v else lookup key d'
  end.

Fixpoint has_prefix (p s : string) : bool :=
  match p, s with
  | EmptyString, _ => true
  | String a p', String b s' => Ascii.eqb a b && has_prefix p' s'
  | String _ _, EmptyString => false
  end.

(** [needle in s] for two strings. *)
Fixpoint substring_of (needle s : string) : bool :=
  has_prefix needle s ||
  match s with
  | EmptyString => false
  | String _ s' => substring_of needle s'
  end.

Definition is_str (key : string) (v : pyval) : bool :=
  match v with
  | PStr s => String.eqb s key
  | _ => false
  end.

(** [key in v] for a string [key]. *)
Definition contains (key : string) (v : pyval) : Result bool :=
  match v with
  | PDict d => Ok (bool_decide (is_Some (lookup key d)))
  | PList l => Ok (existsb (is_str key) l)
  | PStr s => Ok (substring_of key s)
  | _ => Raise TypeError
  end.

(** [v[key]] for a string [key]. *)
Definition getitem (key : string) (v : pyval) : Result pyval :=
  match v with
  | PDict d => match lookup key d with
               | Some x => Ok x
               | None => Raise KeyError
               end
  | _ => Raise TypeError
  end.

(** [v[0]].  Of a string it is the first character (here the first
    byte; the router only ever subscripts the result again, which fails
    for every string).  The keys of a JSON object are strings, so [0] is never a
    key of a dict. *)
Definition getitem0 (v : pyval) : Result pyval :=
  match v with
  | PList l => match l with
               | x :: _ => Ok x
               | [] => Raise IndexError
               end
  | PStr s => match s with
              | String c _ => Ok (PStr (String c EmptyString))
              | EmptyString => Raise IndexError
              end
  | PDict _ => Raise KeyError
  | _ => Raise TypeError
  end.

(** [v.get(key)]: only a dict has the method. *)
Definition get (key : string) (v : pyval) : Result pyval :=
  match v with
  | PDict d => Ok (default PNone (lookup key d))
  | _ => Raise AttributeError
  end.

End Py.

(** Structural equality of Python values, used for the [WHERE] clause. *)
Fixpoint pyval_eqb (a b : pyval) {struct a} : bool :=
  match a, b with
  | PNone, PNone => true
  | PBool x, PBool y => Bool.eqb x y
  | PInt x, PInt y => x =? y
  | PFloat x, PFloat y => x =? y
  | PStr x, PStr y => String.eqb x y
  | PList x, PList y =>
      (fix go (x y : list pyval) {struct x} : bool :=
         match x, y with
         | [], [] => true
         | u :: x', v :: y' => pyval_eqb u v && go x' y'
         | _, _ => false
         end) x y
  | PDict x, PDict y =>
      (fix go (x y : list (string * pyval)) {struct x} : bool :=
         match x, y with
         | [], [] => true
         | (k, u) :: x', (k', v) :: y' =>
             String.eqb k k' && pyval_eqb u v && go x' y'
         | _, _ => false
         end) x y
  | _, _ => false
  end.

(** ** The users table, HTTP messages and the trace *)

(** Modelled from the spec: the [User] entity of [app.models.users]
    (section 3 of the specification): the internal [id], assigned by the
    database when the row is inserted, and the six columns the callback
    fills in.  A table model is not validated when it is constructed, so
    a column holds whatever Python value it was given. *)
Record User : Type := {
  id : option Z;
  username : pyval;
  avatar_url : pyval;
  twitch_id : pyval;
  twitch_display_name : pyval;
  twitch_access_token : pyval;
  twitch_refresh_token : pyval
}.

(** What the handlers read of an [aiohttp] response: [status] and the
    outcome of [await response.json()] ([None] when decoding fails). *)
Record ClientResponse : Type := {
  status : Z;
  json : option pyval
}.

(** The headers of the user-info request.  [bearer] is the value
    interpolated into [f"Bearer {access_token}"]. *)
Record UserInfoHeaders : Type := {
  bearer : pyval;
  Client_Id : string
}.

Inductive verb : Type := GET | POST.

(** Every request that leaves the process and every statement sent to
    the database, in order.  [EvPost] and [EvGet] are the requests the
    router makes, with the answer of the endpoint; [EvFollow] is a request
    the HTTP client makes on its own when the answer before it was a
    redirect, to the url of its [Location] header. *)
Inductive event : Type :=
| EvPost (url : string) (data : gmap string string) (r : ClientResponse)
| EvGet (url : string) (headers : UserInfoHeaders) (r : ClientResponse)
| EvFollow (v : verb) (url : string) (r : ClientResponse)
| EvSelect (where_twitch_id : pyval)
| EvAdd (u : User)
| EvCommit
| EvRefresh.

Definition is_follow (e : event) : bool :=
  match e with
  | EvFollow _ _ _ => true
  | _ => false
  end.

Definition is_db_write (e : event) : bool :=
  match e with
  | EvAdd _ | EvCommit => true
  | _ => false
  end.

Definition is_db_access (e : event) : bool :=
  match e with
  | EvSelect _ | EvAdd _ | EvCommit | EvRefresh => true
  | _ => false
  end.

Record World : Type := {
  table : list User;
  pending : list User;
  log : list event;
  draws : nat
}.

(** Modelled from the spec: the settings object of [app.config]
    (section 6, environment surface). *)
Record Settings : Type := {
  TWITCH_CLIENT_ID : string;
  TWITCH_CLIENT_SECRET : string;
  REDIRECT_URI : string;
  FRONTEND_URL : string
}.

(** The [Location] header of an answer: absent, a url the client can go
    to, or a value it cannot use (not a url, or not http). *)
Inductive Location : Type :=
| NoLocation
| Goto (url : string)
| Unusable.

(** Twitch, and whatever it redirects to, as seen from the HTTP client:
    an answer to each request, which may depend on everything that
    happened before.  [token_endpoint] and [users_endpoint] are the
    answers of the two endpoints themselves; [location_header] is the
    [Location] header of the answer recorded last in the history;
    [redirected] is the answer to a request the client makes while it
    follows a redirect. *)
Record Provider : Type := {
  token_endpoint : list event -> gmap string string -> ClientResponse;
  users_endpoint : list event -> UserInfoHeaders -> ClientResponse;
  location_header : list event -> Location;
  redirected : list event -> verb -> string -> ClientResponse
}.

(** The database server as seen from the session: whether the next
    statement of each kind raises, given everything that happened
    before. *)
Record Database : Type := {
  exec_raises : list event -> bool;
  commit_raises : list event -> bool;
  refresh_raises : list event -> bool
}.

(** ** The monad of the handlers *)

Definition M (A : Type) : Type := World -> Result A * World.

Definition ret {A} (a : A) : M A := fun w => (Ok a, w).

Definition raise {A} (e : exn) : M A := fun w => (Raise e, w).

Definition bind {A B} (m : M A) (k : A -> M B) : M B :=
  fun w =>
    match m w with
    | (Ok a, w') => k a w'
    | (Raise e, w') => (Raise e, w')
    end.

Definition lift {A} (r : Result A) : M A := fun w => (r, w).

Declare Scope py_scope.
Delimit Scope py_scope with py.
Notation "x <- m ;; k" := (bind m (fun x => k))
  (at level 100, m at next level, right associativity) : py_scope.
Notation "m ;;; k" := (bind m (fun _ => k))
  (at level 100, right associativity) : py_scope.
Local Open Scope py_scope.

Definition set_log (l : list event) (w : World) : World :=
  {| table := table w; pending := pending w; log := l; draws := draws w |}.

(** ** [urllib.parse]: [quote], [quote_plus] and [urlencode]

    A [str] is held as the bytes of its UTF-8 encoding, which is what
    [quote] works on. *)
Module Urllib.

Fixpoint mem (c : ascii) (s : string) : bool :=
  match s with
  | EmptyString => false
  | String a s' => Ascii.eqb a c || mem c s'
  end.

Definition ALWAYS_SAFE : string :=
  "ABCDEFGHIJKLMNOPQRSTUVWXYZabcdefghijklmnopqrstuvwxyz0123456789_.-~".

Definition hex_digit (n : nat) : ascii :=
  default "0"%char (String.get n "0123456789ABCDEF").

(** ['%{:02X}'.format(byte)] *)
Definition percent (c : ascii) : string :=
  let n := nat_of_ascii c in
  String "%" (String (hex_digit (n / 16)) (String (hex_digit (n mod 16)) "")).

Fixpoint quote (safe : string) (s : string) : string :=
  match s with
  | EmptyString => EmptyString
  | String c s' =>
      if mem c ALWAYS_SAFE || mem c safe
      then String c (quote safe s')
      else percent c +:+ quote safe s'
  end.

(** [str.replace(' ', '+')] *)
Fixpoint replace_space (s : string) : string :=
  match s with
  | EmptyString => EmptyString
  | String c s' =>
      String (if Ascii.eqb c " " then "+"%char else c) (replace_space s')
  end.

Definition quote_plus (s : string) : string :=
  if mem " " s then replace_space (quote " " s) else quote "" s.

Fixpoint join (sep : string) (l : list string) : string :=
  match l with
  | [] => ""
  | [x] => x
  | x :: l' => x +:+ sep +:+ join sep l'
  end.

(** [urlencode(query)] for a dict of [str] values, in insertion order. *)
Definition urlencode (query : list (string * string)) : string :=
  join "&" (map (fun kv => quote_plus kv.1 +:+ "=" +:+ quote_plus kv.2) query).

(** *** Reading a query string back: [urlsplit(url).query] and
    [parse_qsl(qs, keep_blank_values=True)], the way Starlette (and any
    receiver of the redirect) reads the parameters of a URL. *)

(** [s.split(sep)] for a one-character separator. *)
Fixpoint split_on (sep : ascii) (s : string) : list string :=
  match s with
  | EmptyString => [EmptyString]
  | String c s' =>
      if Ascii.eqb c sep then EmptyString :: split_on sep s'
      else match split_on sep s' with
           | x :: l => String c x :: l
           | [] => [String c EmptyString]
           end
  end.

(** [s.split('=', 1)], with [''] appended when there is no ['=']. *)
Fixpoint name_value (s : string) : string * string :=
  match s with
  | EmptyString => (EmptyString, EmptyString)
  | String c s' =>
      if Ascii.eqb c "=" then (EmptyString, s')
      else let '(n, v) := name_value s' in (String c n, v)
  end.

Definition unhex (c : ascii) : option nat :=
  let n := nat_of_ascii c in
  if (48 <=? n)%nat && (n <=? 57)%nat then Some (n - 48)%nat
  else if (65 <=? n)%nat && (n <=? 70)%nat then Some (n - 55)%nat
  else if (97 <=? n)%nat && (n <=? 102)%nat then Some (n - 87)%nat
  else None.

(** [unquote], on the bytes of the string. *)
Fixpoint unquote (s : string) : string :=
  match s with
  | EmptyString => EmptyString
  | String c s' =>
      let keep := String c (unquote s') in
      if Ascii.eqb c "%" then
        match s' with
        | String h (String l rest) =>
            match unhex h, unhex l with
            | Some x, Some y => String (ascii_of_nat (16 * x + y)) (unquote rest)
            | _, _ => keep
            end
        | _ => keep
        end
      else keep
  end.

(** [str.replace('+', ' ')] *)
Fixpoint replace_plus (s : string) : string :=
  match s with
  | EmptyString => EmptyString
  | String c s' =>
      String (if Ascii.eqb c "+" then " "%char else c) (replace_plus s')
  end.

Definition parse_pair (piece : string) : list (string * string) :=
  match piece with
  | EmptyString => []
  | _ => let '(n, v) := name_value piece in
         [(unquote (replace_plus n), unquote (replace_plus v))]
  end.

Definition parse_qsl (qs : string) : list (string * string) :=
  concat (map parse_pair (split_on "&" qs)).

Fixpoint before (sep : ascii) (s : string) : string :=
  match s with
  | EmptyString => EmptyString
  | String c s' => if Ascii.eqb c sep then EmptyString else String c (before sep s')
  end.

Fixpoint after (sep : ascii) (s : string) : string :=
  match s with
  | EmptyString => EmptyString
  | String c s' => if Ascii.eqb c sep then s' else after sep s'
  end.

(** [urlsplit(url).query] *)
Definition query_of (u : string) : string := after "?" (before "#" u).

End Urllib.

(** ** Starlette requests and responses *)

Record Request : Type := {
  query_params : list (string * string);
  cookies : gmap string string
}.

Module QueryParams.

(** [ImmutableMultiDict._dict = {k: v for k, v in items}]: the last
    value of a repeated key wins. *)
Definition _dict (items : list (string * string)) : gmap string string :=
  list_to_map (reverse items).

Definition get (key : string) (items : list (string * string)) : option string :=
  _dict items !! key.

Definition len (items : list (string * string)) : nat := size (_dict items).

End QueryParams.

Record Cookie : Type := {
  cookie_key : string;
  cookie_value : string;
  max_age : option Z;
  expires : option Z
}.

Record Response : Type := {
  status_code : Z;
  url : string;
  set_cookie_headers : list Cookie
}.

(** [RedirectResponse(url)].  The router passes the url only, so the
    status code is the default of the constructor,
    [RedirectResponse.__init__(self, url, status_code=307, ...)].
    Of [set_cookie] only key, value, [max_age] and [expires] are kept;
    path and same-site policy are always the defaults. *)
Definition RedirectResponse (u : string) : Response :=
  {| status_code := 307; url := u; set_cookie_headers := [] |}.

(** The [location] header that [RedirectResponse] derives from its url. *)
Definition location (r : Response) : string :=
  Urllib.quote ":/%#?=@[]!$&'()*+,;" (url r).

Definition set_cookie (key value : string) (r : Response) : Response :=
  {| status_code := status_code r; url := url r;
     set_cookie_headers := set_cookie_headers r ++
       [{| cookie_key := key; cookie_value := value;
           max_age := None; expires := None |}] |}.

(** [delete_cookie(key)] is [set_cookie(key, max_age=0, expires=0)]. *)
Definition delete_cookie (key : string) (r : Response) : Response :=
  {| status_code := status_code r; url := url r;
     set_cookie_headers := set_cookie_headers r ++
       [{| cookie_key := key; cookie_value := "";
           max_age := Some 0; expires := Some 0 |}] |}.

(** ** [AsyncSession] *)
Module Session.

(** A database that serves every statement. *)
Definition reliable : Database :=
  {| exec_raises := fun _ => false;
     commit_raises := fun _ => false;
     refresh_raises := fun _ => false |}.

Definition matches (tid : pyval) (u : User) : bool :=
  pyval_eqb (twitch_id u) tid.

(** [(await session.exec(select(User).where(User.twitch_id == tid))).first()].
    The query flushes the session first, so pending objects are seen. *)
Definition exec_first (db : Database) (tid : pyval) : M (option User) :=
  fun w =>
    (if exec_raises db (log w) then Raise SQLAlchemyError
     else Ok (find (matches tid) (table w ++ pending w)),
     set_log (log w ++ [EvSelect tid]) w).

Definition add (u : User) : M unit :=
  fun w =>
    (Ok tt, {| table := table w; pending := pending w ++ [u];
               log := log w ++ [EvAdd u]; draws := draws w |}).

Definition max_id (t : list User) : Z :=
  foldr (fun u m => Z.max (default 0 (id u)) m) 0 t.

Definition with_id (n : Z) (u : User) : User :=
  {| id := Some n; username := username u; avatar_url := avatar_url u;
     twitch_id := twitch_id u; twitch_display_name := twitch_display_name u;
     twitch_access_token := twitch_access_token u;
     twitch_refresh_token := twitch_refresh_token u |}.

(** The INSERTs of a flush: each new object gets the next free id.
    Modelled from the spec: the schema of the table is declared in
    [app.models.users], which is not part of the sources; an INSERT the
    database does not refuse is taken to store the row as given. *)
Fixpoint insert_all (t : list User) (new : list User) : list User :=
  match new with
  | [] => t
  | u :: new' => insert_all (t ++ [with_id (max_id t + 1) u]) new'
  end.

(** [await session.commit()].  When the flush or the commit raises, the
    session rolls the transaction back: nothing is stored, and the
    objects that were added in it are expunged. *)
Definition commit (db : Database) : M unit :=
  fun w =>
    if commit_raises db (log w)
    then (Raise SQLAlchemyError,
          {| table := table w; pending := [];
             log := log w ++ [EvCommit]; draws := draws w |})
    else (Ok tt, {| table := insert_all (table w) (pending w); pending := [];
                    log := log w ++ [EvCommit]; draws := draws w |}).

(** [await session.refresh(u)] *)
Definition refresh (db : Database) (u : User) : M unit :=
  fun w =>
    (if refresh_raises db (log w) then Raise SQLAlchemyError else Ok tt,
     set_log (log w ++ [EvRefresh]) w).

End Session.

(** Modelled from the spec: [get_session], which the router imports
    from [app.database], a module that is not among the sources.  Section
    4.1 has it yield a session for the duration of one request and
    release it on all exit paths, which is also what the [get_session] of
    [db/session.py] does: the handler runs with a session of its own,
    which is closed on every exit path; what was added but not committed
    is dropped with it. *)
Definition get_session {A} (handler : M A) : M A :=
  fun w =>
    let '(r, w') :=
      handler {| table := table w; pending := []; log := log w; draws := draws w |} in
    (r, {| table := table w'; pending := []; log := log w'; draws := draws w' |}).

(** ** The arithmetic of [floor(random() * n)]

    [random()] is a double [r / 2^53] with [0 <= r < 2^53] and [n] is a
    small non-negative integer held as a double, so their product is the
    exact rational [r * n / 2^53] rounded to 53 significant bits. *)

(** A non-negative integer rounded to 53 significant bits, ties to even. *)
Definition round53 (m : Z) : Z :=
  let e := Z.log2 m - 52 in
  if e <=? 0 then m
  else
    let q := m / 2 ^ e in
    let rest := m mod 2 ^ e in
    let half := 2 ^ (e - 1) in
    (if (half <? rest) || ((rest =? half) && Z.odd q) then q + 1 else q) * 2 ^ e.

(** [floor((r / 2^53) * n)] in double arithmetic. *)
Definition floor_mul (r n : Z) : Z := round53 (r * n) / 2 ^ 53.

(** ** The HTTP client

    [session.get] and [session.post] are called without
    [allow_redirects=False], so [aiohttp] follows redirects on its own:
    an answer with status 301, 302, 303, 307 or 308 counts as a redirect;
    the tenth redirect of one call raises [TooManyRedirects]; a redirect
    without a [Location] header is handed to the caller as it is;
    otherwise the client goes to the url of the header, with GET after a
    303 and after a 301 or 302 to a POST, and with the method it had
    otherwise.  What the caller gets is the last answer. *)

Definition is_redirect (s : Z) : bool :=
  (s =? 301) || (s =? 302) || (s =? 303) || (s =? 307) || (s =? 308).

Definition next_verb (v : verb) (s : Z) : verb :=
  match v with
  | POST => if (s =? 301) || (s =? 302) || (s =? 303) then GET else POST
  | GET => GET
  end.

(** [max_redirects], the default of [ClientSession.request]. *)
Definition MAX_REDIRECTS : nat := 10.

(** The redirect loop of the client, entered with the answer [r] just
    received and recorded last in [history]; [left] is [max_redirects]
    less the redirects seen so far.  It returns what the call yields and
    the requests it made on the way. *)
Fixpoint follow (twitch : Provider) (left : nat) (v : verb) (r : ClientResponse)
    (history : list event) : Result ClientResponse * list event :=
  if is_redirect (status r) then
    match left with
    | O => (Raise TooManyRedirects, [])
    | S left' =>
        match left' with
        | O => (Raise TooManyRedirects, [])
        | S _ =>
            match location_header twitch history with
            | NoLocation => (Ok r, [])
            | Unusable => (Raise InvalidUrlClientError, [])
            | Goto u =>
                let v' := next_verb v (status r) in
                let r' := redirected twitch history v' u in
                let e := EvFollow v' u r' in
                let '(result, hops) := follow twitch left' v' r' (history ++ [e]) in
                (result, e :: hops)
            end
        end
    end
  else (Ok r, []).

(** ** The router [routers/auth/twitch.py] *)
Section Router.

Variable settings : Settings.
Variable twitch : Provider.
(** The raw output of the generator behind [random.random()], one
    number per draw; [random()] is its low 53 bits over [2^53]. *)
Variable rnd : nat -> Z.

(** [random.random()], as the numerator of a fraction over [2^53]. *)
Definition random : M Z :=
  fun w =>
    (Ok (rnd (draws w) mod 2 ^ 53),
     {| table := table w; pending := pending w; log := log w;
        draws := S (draws w) |}).

(** [random.choices(population, k=k)]:
    [[population[floor(random() * n)] for i in repeat(None, k)]]
    with [n = len(population) + 0.0]. *)
Fixpoint choices (population : string) (k : nat) : M (list ascii) :=
  match k with
  | O => ret []
  | S k' =>
      r <- random ;;
      let n := Z.of_nat (String.length population) in
      c <- lift (match String.get (Z.to_nat (floor_mul r n)) population with
                 | Some c => Ok c
                 | None => Raise IndexError
                 end) ;;
      cs <- choices population k' ;;
      ret (c :: cs)
  end.

Definition ascii_letters : string :=
  "abcdefghijklmnopqrstuvwxyzABCDEFGHIJKLMNOPQRSTUVWXYZ".
Definition digits : string := "0123456789".

Definition generate_random_string (length : Z) : M string :=
  cs <- choices (ascii_letters +:+ digits) (Z.to_nat length) ;;
  ret (string_of_list_ascii cs).

(** [session.get(u, headers=headers)] *)
Definition http_get (u : string) (headers : UserInfoHeaders) : M ClientResponse :=
  fun w =>
    let r := users_endpoint twitch (log w) headers in
    let e := EvGet u headers r in
    let '(result, hops) := follow twitch MAX_REDIRECTS GET r (log w ++ [e]) in
    (result, set_log (log w ++ e :: hops) w).

(** [session.post(u, data=data)] *)
Definition http_post (u : string) (data : gmap string string) : M ClientResponse :=
  fun w =>
    let r := token_endpoint twitch (log w) data in
    let e := EvPost u data r in
    let '(result, hops) := follow twitch MAX_REDIRECTS POST r (log w ++ [e]) in
    (result, set_log (log w ++ e :: hops) w).

(** [await response.json()] *)
Definition response_json (r : ClientResponse) : M pyval :=
  match json r with
  | Some v => ret v
  | None => raise JSONDecodeError
  end.

(** The part of [fetch_user_info] after the request: the first entry of
    the [data] array, if there is one, as the dict [user_data]. *)
Definition user_data_of (data : pyval) : Result pyval :=
  (if Py.truthy data then
     has <~ Py.contains "data" data ;;
     if has then
       items <~ Py.getitem "data" data ;;
       if Py.truthy items then
         user <~ Py.getitem0 items ;;
         uid <~ Py.getitem "id" user ;;
         login <~ Py.getitem "login" user ;;
         display_name <~ Py.getitem "display_name" user ;;
         image <~ Py.getitem "profile_image_url" user ;;
         Ok (PDict [("id", uid); ("username", login);
                    ("display_name", display_name); ("avatar_url", image)])
       else Ok PNone
     else Ok PNone
   else Ok PNone)%result.

Definition fetch_user_info (access_token : pyval) : M pyval :=
  let headers := {| bearer := access_token;
                    Client_Id := TWITCH_CLIENT_ID settings |} in
  response <- http_get "https://api.twitch.tv/helix/users" headers ;;
  if negb (status response =? 200) then
    raise (HTTPException (status response) "Failed to fetch user info")
  else
    data <- response_json response ;;
    lift (user_data_of data).

Definition fetch_twitch_token (data : gmap string string) : M pyval :=
  response <- http_post "https://id.twitch.tv/oauth2/token" data ;;
  if negb (status response =? 200) then
    raise (HTTPException (status response) "Failed to fetch tokens")
  else response_json response.

Definition twitch_login : M Response :=
  state <- generate_random_string 16 ;;
  let query_params :=
    [("response_type", "code");
     ("client_id", TWITCH_CLIENT_ID settings);
     ("redirect_uri", REDIRECT_URI settings);
     ("state", state)] in
  let response :=
    RedirectResponse ("https://id.twitch.tv/oauth2/authorize?"
                      +:+ Urllib.urlencode query_params) in
  ret (set_cookie "twitch_state" state response).

(** [not s] for an optional string: [None] and [''] are falsy. *)
Definition falsy (s : option string) : bool :=
  match s with
  | None => true
  | Some s => String.eqb s ""
  end.

(** The form of the authorization-code exchange. *)
Definition exchange_form (code : string) : gmap string string :=
  <["client_id" := TWITCH_CLIENT_ID settings]>
  (<["client_secret" := TWITCH_CLIENT_SECRET settings]>
  (<["code" := code]>
  (<["grant_type" := "authorization_code"]>
  (<["redirect_uri" := REDIRECT_URI settings]> ∅)))).

(** Lines 129-147: look the profile up, insert it when it is new. *)
Definition store_user (db : Database)
    (user_info access_token refresh_token : pyval) : M unit :=
  if Py.truthy user_info then
    tid <- lift (Py.getitem "id" user_info) ;;
    user_db <- Session.exec_first db tid ;;
    match user_db with
    | Some _ => ret tt
    | None =>
        name <- lift (Py.getitem "username" user_info) ;;
        avatar <- lift (Py.getitem "avatar_url" user_info) ;;
        tid' <- lift (Py.getitem "id" user_info) ;;
        display <- lift (Py.getitem "display_name" user_info) ;;
        let new_user :=
          {| id := None; username := name; avatar_url := avatar;
             twitch_id := tid'; twitch_display_name := display;
             twitch_access_token := access_token;
             twitch_refresh_token := refresh_token |} in
        Session.add new_user ;;;
        Session.commit db ;;;
        Session.refresh db new_user
    end
  else ret tt.

(** [callback]; [db] is the database behind the [session] that the
    handler is given. *)
Definition callback (db : Database) (request : Request) : M Response :=
  if bool_decide (QueryParams.len (query_params request) = 0%nat) then
    raise (HTTPException 400 "No query parameters received")
  else
    let code := QueryParams.get "code" (query_params request) in
    let state := QueryParams.get "state" (query_params request) in
    let stored_state := cookies request !! "twitch_state" in
    if falsy code || falsy state || negb (bool_decide (state = stored_state)) then
      raise (HTTPException 400 "Invalid or missing state")
    else
      (* past the guard [code] is a non-empty string: see [callback_valid] *)
      let data := exchange_form (default "" code) in
      api_response <- fetch_twitch_token data ;;
      access_token <- lift (Py.get "access_token" api_response) ;;
      refresh_token <- lift (Py.get "refresh_token" api_response) ;;
      user_info <- fetch_user_info access_token ;;
      store_user db user_info access_token refresh_token ;;;
      let response := RedirectResponse (FRONTEND_URL settings +:+ "/configurator") in
      ret (delete_cookie "twitch_state" response).

Definition refresh_token (refresh_token : string) : M pyval :=
  let data : gmap string string :=
    <["client_id" := TWITCH_CLIENT_ID settings]>
    (<["client_secret" := TWITCH_CLIENT_SECRET settings]>
    (<["refresh_token" := refresh_token]>
    (<["grant_type" := "refresh_token"]> ∅))) in
  fetch_twitch_token data.

(** What the framework does with the value of a route declared
    [-> dict]: the annotation is the response model, against which the
    value is validated before it is serialised.  A dict passes as it is;
    a value that is no mapping is refused (as pydantic 2 validates
    [dict]). *)
Definition response_model_dict (v : pyval) : Result pyval :=
  match v with
  | PDict _ => Ok v
  | _ => Raise ResponseValidationError
  end.

(** The three routes as the application serves them: [callback]
    depends on [get_session]; [refresh_token] is declared [-> dict], the
    other two return a response object, which is passed on as it is.
    [route_callback] is the callback route over a database that serves
    every statement: the runs in which no call to the session raises. *)
Definition route_login : M Response := twitch_login.
Definition route_callback_on (db : Database) (request : Request) : M Response :=
  get_session (callback db request).
Definition route_callback (request : Request) : M Response :=
  route_callback_on Session.reliable request.
Definition route_refresh (token : string) : M pyval :=
  value <- refresh_token token ;;
  lift (response_model_dict value).

End Router.


(** ** Vocabulary of the specification *)

(** The alphabet [[A-Za-z0-9]]. *)
Definition alnum (c : ascii) : bool :=
  let n := nat_of_ascii c in
  ((65 <=? n)%nat && (n <=? 90)%nat) ||
  ((97 <=? n)%nat && (n <=? 122)%nat) ||
  ((48 <=? n)%nat && (n <=? 57)%nat).

Fixpoint str_all (p : ascii -> bool) (s : string) : bool :=
  match s with
  | EmptyString => true
  | String c s' => p c && str_all p s'
  end.

(** At most one row per distinct [twitch_id]. *)
Definition unique_twitch_ids (t : list User) : Prop :=
  NoDup (map twitch_id t).

(** The request gets through the two guards of [callback]. *)
Definition passes_validation (request : Request) (code state : string) : Prop :=
  QueryParams.get "code" (query_params request) = Some code /\ code <> "" /\
  QueryParams.get "state" (query_params request) = Some state /\ state <> "" /\
  cookies request !! "twitch_state" = Some state.

(** The status of the answer a request got. *)
Definition upstream_status (e : event) : option Z :=
  match e with
  | EvPost _ _ r | EvGet _ _ r | EvFollow _ _ r => Some (status r)
  | _ => None
  end.

(** What a call added to the trace. *)
Definition events_since (w w' : World) : list event :=
  drop (length (log w)) (log w').

(** The operations of the program, and a sequential run of them. *)
Inductive operation : Type :=
| Login
| Callback (request : Request)
| Refresh (token : string).

Definition run_operation (settings : Settings) (twitch : Provider) (rnd : nat -> Z)
    (o : operation) (w : World) : World :=
  match o with
  | Login => (route_login settings rnd w).2
  | Callback request => (route_callback settings twitch request w).2
  | Refresh token => (route_refresh settings twitch token w).2
  end.

Definition run (settings : Settings) (twitch : Provider) (rnd : nat -> Z)
    (os : list operation) (w : World) : World :=
  foldl (fun w o => run_operation settings twitch rnd o w) w os.

(** The dict [user_data] that [fetch_user_info] builds. *)
Definition user_data (tid login display_name image : pyval) : pyval :=
  PDict [("id", tid); ("username", login);
         ("display_name", display_name); ("avatar_url", image)].

(** The row [callback] constructs from a profile and a token pair, with
    the id the database gives it. *)
Definition new_row (n : Z) (tid login display_name image access refresh : pyval) : User :=
  {| id := Some n; username := login; avatar_url := image;
     twitch_id := tid; twitch_display_name := display_name;
     twitch_access_token := access; twitch_refresh_token := refresh |}.

Definition TOKEN_URL : string := "https://id.twitch.tv/oauth2/token".
Definition USERS_URL : string := "https://api.twitch.tv/helix/users".

(** What [callback] answers on every path that reaches its end. *)
Definition frontend_redirect (settings : Settings) : Response :=
  delete_cookie "twitch_state"
    (RedirectResponse (FRONTEND_URL settings +:+ "/configurator")).

(** What [callback] does once the request is through its guards. *)
Definition exchange_on (db : Database) (settings : Settings) (twitch : Provider)
    (code : string) : M Response :=
  api_response <- fetch_twitch_token twitch (exchange_form settings code) ;;
  access_token <- lift (Py.get "access_token" api_response) ;;
  refresh_token <- lift (Py.get "refresh_token" api_response) ;;
  user_info <- fetch_user_info settings twitch access_token ;;
  store_user db user_info access_token refresh_token ;;;
  ret (frontend_redirect settings).

(** The world a request starts in: the session of [get_session] is new. *)
Definition new_session (w : World) : World :=
  {| table := table w; pending := []; log := log w; draws := draws w |}.

(** The request the callback sends to the token endpoint, with its answer. *)
Definition token_call (settings : Settings) (twitch : Provider) (code : string)
    (w : World) : event :=
  EvPost TOKEN_URL (exchange_form settings code)
    (token_endpoint twitch (log w) (exchange_form settings code)).

(** The request the callback sends to the user-info endpoint after
    [token_call], with its answer. *)
Definition users_call (settings : Settings) (twitch : Provider) (code : string)
    (access_token : pyval) (w : World) : event :=
  let h := {| bearer := access_token; Client_Id := TWITCH_CLIENT_ID settings |} in
  EvGet USERS_URL h
    (users_endpoint twitch (log w ++ [token_call settings twitch code w]) h).

Definition token_answer (settings : Settings) (twitch : Provider) (code : string)
    (w : World) : ClientResponse :=
  token_endpoint twitch (log w) (exchange_form settings code).

Definition users_answer (settings : Settings) (twitch : Provider) (code : string)
    (access_token : pyval) (w : World) : ClientResponse :=
  users_endpoint twitch (log w ++ [token_call settings twitch code w])
    {| bearer := access_token; Client_Id := TWITCH_CLIENT_ID settings |}.

(** What the POST of the callback yields once the client has followed
    the redirects, if any, and the requests it made on the way. *)
Definition token_result (settings : Settings) (twitch : Provider) (code : string)
    (w : World) : Result ClientResponse :=
  (follow twitch MAX_REDIRECTS POST (token_answer settings twitch code w)
     (log w ++ [token_call settings twitch code w])).1.

Definition token_hops (settings : Settings) (twitch : Provider) (code : string)
    (w : World) : list event :=
  (follow twitch MAX_REDIRECTS POST (token_answer settings twitch code w)
     (log w ++ [token_call settings twitch code w])).2.

(** Everything the token call adds to the trace. *)
Definition token_chain (settings : Settings) (twitch : Provider) (code : string)
    (w : World) : list event :=
  token_call settings twitch code w :: token_hops settings twitch code w.

(** The GET of the callback, which comes after the whole token call, and
    what it yields. *)
Definition users_headers (settings : Settings) (access_token : pyval) : UserInfoHeaders :=
  {| bearer := access_token; Client_Id := TWITCH_CLIENT_ID settings |}.

Definition users_first_answer (settings : Settings) (twitch : Provider) (code : string)
    (access_token : pyval) (w : World) : ClientResponse :=
  users_endpoint twitch (log w ++ token_chain settings twitch code w)
    (users_headers settings access_token).

Definition users_first (settings : Settings) (twitch : Provider) (code : string)
    (access_token : pyval) (w : World) : event :=
  EvGet USERS_URL (users_headers settings access_token)
    (users_first_answer settings twitch code access_token w).

Definition users_result (settings : Settings) (twitch : Provider) (code : string)
    (access_token : pyval) (w : World) : Result ClientResponse :=
  (follow twitch MAX_REDIRECTS GET
     (users_first_answer settings twitch code access_token w)
     ((log w ++ token_chain settings twitch code w)
      ++ [users_first settings twitch code access_token w])).1.

Definition users_hops (settings : Settings) (twitch : Provider) (code : string)
    (access_token : pyval) (w : World) : list event :=
  (follow twitch MAX_REDIRECTS GET
     (users_first_answer settings twitch code access_token w)
     ((log w ++ token_chain settings twitch code w)
      ++ [users_first settings twitch code access_token w])).2.

Definition users_chain (settings : Settings) (twitch : Provider) (code : string)
    (access_token : pyval) (w : World) : list event :=
  users_first settings twitch code access_token w ::
  users_hops settings twitch code access_token w.

(** Everything the two calls to Twitch add to the trace. *)
Definition twitch_chain (settings : Settings) (twitch : Provider) (code : string)
    (access_token : pyval) (w : World) : list event :=
  token_chain settings twitch code w ++ users_chain settings twitch code access_token w.

(** ** A concrete deployment, for the examples *)
Module Sample.

Definition settings : Settings :=
  {| TWITCH_CLIENT_ID := "client-1"; TWITCH_CLIENT_SECRET := "secret";
     REDIRECT_URI := "http://localhost:8000/auth/callback";
     FRONTEND_URL := "http://localhost:3000" |}.

Definition token_body : pyval :=
  PDict [("access_token", PStr "AT"); ("refresh_token", PStr "RT");
         ("expires_in", PInt 3600)].

Definition users_body : pyval :=
  PDict [("data", PList [PDict [("id", PStr "42"); ("login", PStr "bob");
                                ("display_name", PStr "Bob");
                                ("profile_image_url", PStr "http://img/bob.png")]])].

Definition not_found : ClientResponse := {| status := 404; json := None |}.

(** Twitch answering every request with success. *)
Definition twitch : Provider :=
  {| token_endpoint := fun _ _ => {| status := 200; json := Some token_body |};
     users_endpoint := fun _ _ => {| status := 200; json := Some users_body |};
     location_header := fun _ => NoLocation;
     redirected := fun _ _ _ => not_found |}.

(** Twitch rejecting the code. *)
Definition twitch_denying : Provider :=
  {| token_endpoint := fun _ _ => {| status := 403; json := None |};
     users_endpoint := fun _ _ => {| status := 200; json := Some users_body |};
     location_header := fun _ => NoLocation;
     redirected := fun _ _ _ => not_found |}.

(** Twitch answering the exchange with a body that has no tokens. *)
Definition twitch_without_tokens : Provider :=
  {| token_endpoint := fun _ _ => {| status := 200; json := Some (PDict []) |};
     users_endpoint := fun _ _ => {| status := 200; json := Some users_body |};
     location_header := fun _ => NoLocation;
     redirected := fun _ _ _ => not_found |}.

(** Twitch answering the exchange with a JSON list. *)
Definition twitch_answering_list : Provider :=
  {| token_endpoint := fun _ _ => {| status := 200; json := Some (PList []) |};
     users_endpoint := fun _ _ => {| status := 200; json := Some users_body |};
     location_header := fun _ => NoLocation;
     redirected := fun _ _ _ => not_found |}.

(** Twitch answering the exchange with a JSON string. *)
Definition twitch_answering_text : Provider :=
  {| token_endpoint := fun _ _ => {| status := 200; json := Some (PStr "ok") |};
     users_endpoint := fun _ _ => {| status := 200; json := Some users_body |};
     location_header := fun _ => NoLocation;
     redirected := fun _ _ _ => not_found |}.

(** Twitch knowing no user for the token. *)
Definition twitch_without_profile : Provider :=
  {| token_endpoint := fun _ _ => {| status := 200; json := Some token_body |};
     users_endpoint := fun _ _ =>
       {| status := 200; json := Some (PDict [("data", PList [])]) |};
     location_header := fun _ => NoLocation;
     redirected := fun _ _ _ => not_found |}.

(** The token endpoint moved: it answers 307 with a [Location], and the
    place it points to serves the tokens. *)
Definition MOVED_TO : string := "https://id.twitch.tv/oauth2/v2/token".

Definition twitch_moved : Provider :=
  {| token_endpoint := fun _ _ => {| status := 307; json := None |};
     users_endpoint := fun _ _ => {| status := 200; json := Some users_body |};
     location_header := fun _ => Goto MOVED_TO;
     redirected := fun _ _ _ => {| status := 200; json := Some token_body |} |}.

(** A database whose connection is lost right after the commit. *)
Definition database_lost_after_commit : Database :=
  {| exec_raises := fun _ => false;
     commit_raises := fun _ => false;
     refresh_raises := fun _ => true |}.

(** A database that refuses the commit. *)
Definition database_refusing_commit : Database :=
  {| exec_raises := fun _ => false;
     commit_raises := fun _ => true;
     refresh_raises := fun _ => false |}.

Definition rnd (n : nat) : Z := Z.of_nat n * 1234567890123457 + 99.

Definition empty_world : World :=
  {| table := []; pending := []; log := []; draws := 0 |}.

Definition bob : User :=
  {| id := Some 1; username := PStr "bob"; avatar_url := PStr "http://img/old.png";
     twitch_id := PStr "42"; twitch_display_name := PStr "Bob";
     twitch_access_token := PStr "old-AT"; twitch_refresh_token := PStr "old-RT" |}.

Definition world_with_bob : World :=
  {| table := [bob]; pending := []; log := []; draws := 0 |}.

Definition good_request : Request :=
  {| query_params := [("code", "abc"); ("state", "xyz")];
     cookies := {[ "twitch_state" := "xyz" ]} |}.

Definition forged_request : Request :=
  {| query_params := [("code", "abc"); ("state", "xyz")];
     cookies := {[ "twitch_state" := "other" ]} |}.

End Sample.

(** The world after [k] more draws from the random generator. *)
Definition advance (k : nat) (w : World) : World :=
  {| table := table w; pending := pending w; log := log w;
     draws := (draws w + k)%nat |}.

(** The characters [quote_plus] can produce. *)
Definition quoted_char (c : ascii) : bool :=
  Urllib.mem c Urllib.ALWAYS_SAFE || Ascii.eqb c "%" || Ascii.eqb c "+".

(** The characters [RedirectResponse] leaves as they are in [location]. *)
Definition location_char (c : ascii) : bool :=
  Urllib.mem c Urllib.ALWAYS_SAFE || Urllib.mem c ":/%#?=@[]!$&'()*+,;".

Definition is_not (x : ascii) (c : ascii) : bool := negb (Ascii.eqb c x).

(** The characters of a query string built by [urlencode]. *)
Definition query_char (c : ascii) : bool :=
  quoted_char c || Ascii.eqb c "=" || Ascii.eqb c "&".

Definition AUTHORIZE_URL : string := "https://id.twitch.tv/oauth2/authorize".

(** The query of the authorization URL that [twitch_login] builds. *)
Definition login_query (settings : Settings) (state : string) : list (string * string) :=
  [("response_type", "code");
   ("client_id", TWITCH_CLIENT_ID settings);
   ("redirect_uri", REDIRECT_URI settings);
   ("state", state)].

(** The form that [refresh_token] posts. *)
Definition refresh_form (settings : Settings) (token : string) : gmap string string :=
  <["client_id" := TWITCH_CLIENT_ID settings]>
  (<["client_secret" := TWITCH_CLIENT_SECRET settings]>
  (<["refresh_token" := token]>
  (<["grant_type" := "refresh_token"]> ∅))).

(** ** The paths through [callback] *)

(** The world a callback leaves when it stored nothing: only the trace
    has grown. *)
Definition after_events (w : World) (evs : list event) : World :=
  {| table := table w; pending := []; log := log w ++ evs; draws := draws w |}.

(** The world a callback leaves when it stored a row. *)
Definition after_insert (w : World) (row : User) (evs : list event) : World :=
  {| table := table w ++ [row]; pending := []; log := log w ++ evs;
     draws := draws w |}.

(** The object [callback] constructs and hands to [session.add]. *)
Definition unsaved (tid login display_name image access refresh : pyval) : User :=
  {| id := None; username := login; avatar_url := image;
     twitch_id := tid; twitch_display_name := display_name;
     twitch_access_token := access; twitch_refresh_token := refresh |}.

(** Every way a request can go through [callback] under [get_session],
    one constructor per exit of the source: the two guards (lines
    105-113); the exits of [fetch_twitch_token], the client failing
    included; the [get] on its result; the exits of [fetch_user_info];
    and the ways through lines 129-147, each call to the session either
    raising or not. *)
Inductive callback_run (db : Database) (settings : Settings) (twitch : Provider)
    (request : Request) (w : World) : Result Response -> World -> Prop :=
| run_rejected detail :
    ~ (exists code state, passes_validation request code state) ->
    callback_run db settings twitch request w
      (Raise (HTTPException 400 detail)) (new_session w)
| run_token_error code state e :
    passes_validation request code state ->
    token_result settings twitch code w = Raise e ->
    callback_run db settings twitch request w
      (Raise e) (after_events w (token_chain settings twitch code w))
| run_token_refused code state r :
    passes_validation request code state ->
    token_result settings twitch code w = Ok r ->
    status r <> 200 ->
    callback_run db settings twitch request w
      (Raise (HTTPException (status r) "Failed to fetch tokens"))
      (after_events w (token_chain settings twitch code w))
| run_token_undecodable code state r :
    passes_validation request code state ->
    token_result settings twitch code w = Ok r ->
    status r = 200 -> json r = None ->
    callback_run db settings twitch request w
      (Raise JSONDecodeError)
      (after_events w (token_chain settings twitch code w))
| run_token_not_object code state r api :
    passes_validation request code state ->
    token_result settings twitch code w = Ok r ->
    status r = 200 -> json r = Some api ->
    (forall tok, api <> PDict tok) ->
    callback_run db settings twitch request w
      (Raise AttributeError)
      (after_events w (token_chain settings twitch code w))
| run_users_error code state tok access e :
    passes_validation request code state ->
    token_result settings twitch code w
      = Ok {| status := 200; json := Some (PDict tok) |} ->
    access = default PNone (Py.lookup "access_token" tok) ->
    users_result settings twitch code access w = Raise e ->
    callback_run db settings twitch request w
      (Raise e) (after_events w (twitch_chain settings twitch code access w))
| run_users_refused code state tok access r :
    passes_validation request code state ->
    token_result settings twitch code w
      = Ok {| status := 200; json := Some (PDict tok) |} ->
    access = default PNone (Py.lookup "access_token" tok) ->
    users_result settings twitch code access w = Ok r ->
    status r <> 200 ->
    callback_run db settings twitch request w
      (Raise (HTTPException (status r) "Failed to fetch user info"))
      (after_events w (twitch_chain settings twitch code access w))
| run_users_undecodable code state tok access :
    passes_validation request code state ->
    token_result settings twitch code w
      = Ok {| status := 200; json := Some (PDict tok) |} ->
    access = default PNone (Py.lookup "access_token" tok) ->
    users_result settings twitch code access w
      = Ok {| status := 200; json := None |} ->
    callback_run db settings twitch request w
      (Raise JSONDecodeError)
      (after_events w (twitch_chain settings twitch code access w))
| run_users_malformed code state tok access body e :
    passes_validation request code state ->
    token_result settings twitch code w
      = Ok {| status := 200; json := Some (PDict tok) |} ->
    access = default PNone (Py.lookup "access_token" tok) ->
    users_result settings twitch code access w
      = Ok {| status := 200; json := Some body |} ->
    user_data_of body = Raise e ->
    callback_run db settings twitch request w
      (Raise e) (after_events w (twitch_chain settings twitch code access w))
| run_no_profile code state tok access body :
    passes_validation request code state ->
    token_result settings twitch code w
      = Ok {| status := 200; json := Some (PDict tok) |} ->
    access = default PNone (Py.lookup "access_token" tok) ->
    users_result settings twitch code access w
      = Ok {| status := 200; json := Some body |} ->
    user_data_of body = Ok PNone ->
    callback_run db settings twitch request w
      (Ok (frontend_redirect settings))
      (after_events w (twitch_chain settings twitch code access w))
| run_select_failed code state tok access body tid login display_name image :
    passes_validation request code state ->
    token_result settings twitch code w
      = Ok {| status := 200; json := Some (PDict tok) |} ->
    access = default PNone (Py.lookup "access_token" tok) ->
    users_result settings twitch code access w
      = Ok {| status := 200; json := Some body |} ->
    user_data_of body = Ok (user_data tid login display_name image) ->
    exec_raises db (log w ++ twitch_chain settings twitch code access w) = true ->
    callback_run db settings twitch request w
      (Raise SQLAlchemyError)
      (after_events w (twitch_chain settings twitch code access w ++ [EvSelect tid]))
| run_known_user code state tok access body tid login display_name image u :
    passes_validation request code state ->
    token_result settings twitch code w
      = Ok {| status := 200; json := Some (PDict tok) |} ->
    access = default PNone (Py.lookup "access_token" tok) ->
    users_result settings twitch code access w
      = Ok {| status := 200; json := Some body |} ->
    user_data_of body = Ok (user_data tid login display_name image) ->
    exec_raises db (log w ++ twitch_chain settings twitch code access w) = false ->
    u ∈ table w -> twitch_id u = tid ->
    callback_run db settings twitch request w
      (Ok (frontend_redirect settings))
      (after_events w (twitch_chain settings twitch code access w ++ [EvSelect tid]))
| run_commit_failed code state tok access refresh body tid login display_name image :
    passes_validation request code state ->
    token_result settings twitch code w
      = Ok {| status := 200; json := Some (PDict tok) |} ->
    access = default PNone (Py.lookup "access_token" tok) ->
    refresh = default PNone (Py.lookup "refresh_token" tok) ->
    users_result settings twitch code access w
      = Ok {| status := 200; json := Some body |} ->
    user_data_of body = Ok (user_data tid login display_name image) ->
    exec_raises db (log w ++ twitch_chain settings twitch code access w) = false ->
    (forall u, u ∈ table w -> twitch_id u <> tid) ->
    commit_raises db
      (log w ++ twitch_chain settings twitch code access w ++
       [EvSelect tid; EvAdd (unsaved tid login display_name image access refresh)])
      = true ->
    callback_run db settings twitch request w
      (Raise SQLAlchemyError)
      (after_events w
         (twitch_chain settings twitch code access w ++
          [EvSelect tid; EvAdd (unsaved tid login display_name image access refresh);
           EvCommit]))
| run_refresh_failed code state tok access refresh body tid login display_name image :
    passes_validation request code state ->
    token_result settings twitch code w
      = Ok {| status := 200; json := Some (PDict tok) |} ->
    access = default PNone (Py.lookup "access_token" tok) ->
    refresh = default PNone (Py.lookup "refresh_token" tok) ->
    users_result settings twitch code access w
      = Ok {| status := 200; json := Some body |} ->
    user_data_of body = Ok (user_data tid login display_name image) ->
    exec_raises db (log w ++ twitch_chain settings twitch code access w) = false ->
    (forall u, u ∈ table w -> twitch_id u <> tid) ->
    commit_raises db
      (log w ++ twitch_chain settings twitch code access w ++
       [EvSelect tid; EvAdd (unsaved tid login display_name image access refresh)])
      = false ->
    refresh_raises db
      (log w ++ twitch_chain settings twitch code access w ++
       [EvSelect tid; EvAdd (unsaved tid login display_name image access refresh);
        EvCommit])
      = true ->
    callback_run db settings twitch request w
      (Raise SQLAlchemyError)
      (after_insert w
         (new_row (Session.max_id (table w) + 1) tid login display_name image
            access refresh)
         (twitch_chain settings twitch code access w ++
          [EvSelect tid; EvAdd (unsaved tid login display_name image access refresh);
           EvCommit; EvRefresh]))
| run_new_user code state tok access refresh body tid login display_name image :
    passes_validation request code state ->
    token_result settings twitch code w
      = Ok {| status := 200; json := Some (PDict tok) |} ->
    access = default PNone (Py.lookup "access_token" tok) ->
    refresh = default PNone (Py.lookup "refresh_token" tok) ->
    users_result settings twitch code access w
      = Ok {| status := 200; json := Some body |} ->
    user_data_of body = Ok (user_data tid login display_name image) ->
    exec_raises db (log w ++ twitch_chain settings twitch code access w) = false ->
    (forall u, u ∈ table w -> twitch_id u <> tid) ->
    commit_raises db
      (log w ++ twitch_chain settings twitch code access w ++
       [EvSelect tid; EvAdd (unsaved tid login display_name image access refresh)])
      = false ->
    refresh_raises db
      (log w ++ twitch_chain settings twitch code access w ++
       [EvSelect tid; EvAdd (unsaved tid login display_name image access refresh);
        EvCommit])
      = false ->
    callback_run db settings twitch request w
      (Ok (frontend_redirect settings))
      (after_insert w
         (new_row (Session.max_id (table w) + 1) tid login display_name image
            access refresh)
         (twitch_chain settings twitch code access w ++
          [EvSelect tid; EvAdd (unsaved tid login display_name image access refresh);
           EvCommit; EvRefresh])).

(** ** A second deployment: Twitch issuing new tokens at each login *)
Module Relogin.

Definition first_tokens : list (string * pyval) :=
  [("access_token", PStr "AT-1"); ("refresh_token", PStr "RT-1")].

Definition later_tokens : list (string * pyval) :=
  [("access_token", PStr "AT-2"); ("refresh_token", PStr "RT-2")].

Definition profile (display : string) : pyval :=
  PDict [("data", PList [PDict [("id", PStr "42"); ("login", PStr "bob");
                                ("display_name", PStr display);
                                ("profile_image_url", PStr "http://img/bob.png")]])].

(** The first exchange gets the first pair of tokens, every later one a
    new pair; the profile is renamed once the user has logged in. *)
Definition twitch : Provider :=
  {| token_endpoint := fun history _ =>
       {| status := 200;
          json := Some (PDict (match history with
                               | [] => first_tokens
                               | _ => later_tokens
                               end)) |};
     users_endpoint := fun history _ =>
       {| status := 200;
          json := Some (profile (match history with
                                 | [_] => "Bob"
                                 | _ => "Robert"
                                 end)) |};
     location_header := fun _ => NoLocation;
     redirected := fun _ _ _ => {| status := 404; json := None |} |}.

End Relogin.

(** What [quote_plus] writes for one byte: the byte itself when it is
    always safe, [+] for a space, the percent escape otherwise. *)
Definition quote_plus_byte (c : ascii) : string :=
  if Urllib.mem c Urllib.ALWAYS_SAFE then String c ""
  else if Ascii.eqb c " " then "+"
  else Urllib.percent c.

Fixpoint quote_plus_each (s : string) : string :=
  match s with
  | EmptyString => EmptyString
  | String c s' => quote_plus_byte c +:+ quote_plus_each s'
  end.

(** * Properties *)

(** ** Equality of Python values *)

Lemma pyval_nested_ind (P : pyval -> Prop) :
  P PNone ->
  (forall b, P (PBool b)) ->
  (forall n, P (PInt n)) ->
  (forall bits, P (PFloat bits)) ->
  (forall s, P (PStr s)) ->
  (forall l, Forall P l -> P (PList l)) ->
  (forall d, Forall (fun kv => P kv.2) d -> P (PDict d)) ->
  forall v, P v.
Proof.
  intros HNone HBool HInt HFloat HStr HList HDict.
  fix IH 1. intros [| b | n | bits | s | l | d].
  - exact HNone.
  - apply HBool.
  - apply HInt.
  - apply HFloat.
  - apply HStr.
  - apply HList. induction l as [| x l IHl]; constructor; [apply IH | exact IHl].
  - apply HDict. induction d as [| [k x] d IHd]; constructor; [apply IH | exact IHd].
Qed.

Lemma pyval_eqb_eq (a b : pyval) : pyval_eqb a b = true <-> a = b.
Proof.
  revert b. induction a as [| x | x | x | x | l IH | d IH] using pyval_nested_ind;
    intros [| y | y | y | y | l' | d']; simpl;
    try (split; [discriminate | discriminate]); try tauto.
  - rewrite Bool.eqb_true_iff. split; congruence.
  - rewrite Z.eqb_eq. split; congruence.
  - rewrite Z.eqb_eq. split; congruence.
  - rewrite String.eqb_eq. split; congruence.
  - revert l'. induction IH as [| u l Hu _ IHl]; intros [| v l'];
      try (split; [discriminate | discriminate]); try tauto.
    rewrite andb_true_iff, Hu.
    specialize (IHl l'). split.
    + intros [-> Hl]. apply IHl in Hl. congruence.
    + intros [= -> ->]. split; [done |]. apply IHl. done.
  - revert d'. induction IH as [| [k u] d Hu _ IHd]; intros [| [k' v] d'];
      try (split; [discriminate | discriminate]); try tauto.
    rewrite !andb_true_iff, String.eqb_eq. simpl in Hu. rewrite Hu.
    specialize (IHd d'). split.
    + intros [[-> ->] Hd]. apply IHd in Hd. congruence.
    + intros [= -> -> ->]. repeat split; try done. apply IHd. done.
Qed.

Lemma pyval_eqb_refl (a : pyval) : pyval_eqb a a = true.
Proof. by apply pyval_eqb_eq. Qed.

Lemma pyval_eqb_neq (a b : pyval) : pyval_eqb a b = false <-> a <> b.
Proof.
  rewrite <- pyval_eqb_eq. destruct (pyval_eqb a b); split; congruence.
Qed.

(** ** The HTTP client *)

Lemma follow_not_redirect (twitch : Provider) (left : nat) (v : verb)
    (r : ClientResponse) (history : list event) :
  is_redirect (status r) = false ->
  follow twitch left v r history = (Ok r, []).
Proof. intros H. destruct left; cbn [follow]; by rewrite H. Qed.

(** One step of the redirect loop. *)
Lemma follow_step (twitch : Provider) (left : nat) (v : verb)
    (r : ClientResponse) (history : list event) :
  follow twitch left v r history = (Ok r, []) \/
  (exists e, follow twitch left v r history = (Raise e, [])) \/
  (exists left' u,
     left = S left' /\
     is_redirect (status r) = true /\
     location_header twitch history = Goto u /\
     let v' := next_verb v (status r) in
     let r' := redirected twitch history v' u in
     let e := EvFollow v' u r' in
     follow twitch left v r history =
     ((follow twitch left' v' r' (history ++ [e])).1,
      e :: (follow twitch left' v' r' (history ++ [e])).2)).
Proof.
  destruct left as [| left']; cbn [follow].
  - destruct (is_redirect (status r)); [right; left; eauto | by left].
  - destruct (is_redirect (status r)) eqn:E; [| by left].
    destruct left' as [| left'']; [right; left; eauto |].
    destruct (location_header twitch history) as [| u |] eqn:L;
      [by left | | right; left; eauto].
    right. right. exists (S left''), u. repeat split; try done.
    cbv zeta. by destruct (follow twitch (S left'') _ _ _).
Qed.

(** The client itself only adds requests of its own to the trace. *)
Lemma follow_hops (twitch : Provider) (left : nat) (v : verb)
    (r : ClientResponse) (history : list event) (e : event) :
  e ∈ (follow twitch left v r history).2 -> is_follow e = true.
Proof.
  revert v r history. induction left as [| left IH]; intros v r history He.
  - cbn [follow] in He. destruct (is_redirect (status r)); by apply elem_of_nil in He.
  - destruct (follow_step twitch (S left) v r history)
      as [H | [[x H] | (left' & u & [= <-] & _ & _ & H)]];
      rewrite H in He; cbn [snd] in He; try by apply elem_of_nil in He.
    apply elem_of_cons in He as [-> | He]; [reflexivity |]. by eapply IH.
Qed.

(** An answer that is no redirect ends the loop: it is what the call
    yields. *)
Lemma follow_final (twitch : Provider) (left : nat) (v : verb)
    (r : ClientResponse) (history : list event) (s : Z) :
  status r = s \/
  (exists e, e ∈ (follow twitch left v r history).2 /\ upstream_status e = Some s) ->
  is_redirect s = false ->
  exists r', (follow twitch left v r history).1 = Ok r' /\ status r' = s.
Proof.
  revert v r history. induction left as [| left IH]; intros v r history Hs Hno.
  - cbn [follow] in *. destruct (is_redirect (status r)) eqn:E.
    + destruct Hs as [<- | (e & He & _)]; [congruence | by apply elem_of_nil in He].
    + destruct Hs as [<- | (e & He & _)]; [eauto | by apply elem_of_nil in He].
  - destruct (follow_step twitch (S left) v r history)
      as [H | [[x H] | (left' & u & [= <-] & E & _ & H)]]; rewrite H in *;
      cbn [fst snd] in *.
    + destruct Hs as [<- | (e & He & _)]; [eauto | by apply elem_of_nil in He].
    + destruct Hs as [<- | (e & He & _)]; [| by apply elem_of_nil in He].
      exfalso. clear IH. destruct left as [| left'']; cbn [follow] in H.
      * destruct (is_redirect (status r)) eqn:E; [congruence | discriminate H].
      * destruct (is_redirect (status r)) eqn:E; [congruence | discriminate H].
    + apply IH; [| exact Hno].
      destruct Hs as [<- | (e & He & Hst)]; [congruence |].
      apply elem_of_cons in He as [-> | He]; [left; by injection Hst | right; eauto].
Qed.

(** ** How each function of the router runs *)

Section Runs.

Variable settings : Settings.
Variable twitch : Provider.

Lemma fetch_twitch_token_run (data : gmap string string) (w : World) :
  fetch_twitch_token twitch data w =
  let r := token_endpoint twitch (log w) data in
  let e := EvPost TOKEN_URL data r in
  let f := follow twitch MAX_REDIRECTS POST r (log w ++ [e]) in
  (match f.1 with
   | Raise x => Raise x
   | Ok a =>
       if status a =? 200
       then match json a with
            | Some v => Ok v
            | None => Raise JSONDecodeError
            end
       else Raise (HTTPException (status a) "Failed to fetch tokens")
   end,
   set_log (log w ++ e :: f.2) w).
Proof.
  unfold fetch_twitch_token, bind, http_post, response_json. cbv zeta.
  change "https://id.twitch.tv/oauth2/token" with TOKEN_URL.
  destruct (follow twitch MAX_REDIRECTS POST _ _) as [[a | x] hops]; cbn [fst snd];
    [| reflexivity].
  destruct (status a =? 200); simpl; [| reflexivity].
  destruct (json a); reflexivity.
Qed.

Lemma fetch_user_info_run (access_token : pyval) (w : World) :
  fetch_user_info settings twitch access_token w =
  let h := users_headers settings access_token in
  let r := users_endpoint twitch (log w) h in
  let e := EvGet USERS_URL h r in
  let f := follow twitch MAX_REDIRECTS GET r (log w ++ [e]) in
  (match f.1 with
   | Raise x => Raise x
   | Ok a =>
       if status a =? 200
       then match json a with
            | Some v => user_data_of v
            | None => Raise JSONDecodeError
            end
       else Raise (HTTPException (status a) "Failed to fetch user info")
   end,
   set_log (log w ++ e :: f.2) w).
Proof.
  unfold fetch_user_info, bind, http_get, response_json, lift, users_headers. cbv zeta.
  change "https://api.twitch.tv/helix/users" with USERS_URL.
  destruct (follow twitch MAX_REDIRECTS GET _ _) as [[a | x] hops]; cbn [fst snd];
    [| reflexivity].
  destruct (status a =? 200); simpl; [| reflexivity].
  destruct (json a); simpl; [| reflexivity].
  destruct (user_data_of _); reflexivity.
Qed.

(** [fetch_user_info] returns [None] or the four-key dict. *)
Lemma user_data_of_shape (data ui : pyval) :
  user_data_of data = Ok ui ->
  ui = PNone \/ exists tid login display_name image,
                 ui = user_data tid login display_name image.
Proof.
  unfold user_data_of, rbind.
  repeat (case_match; try discriminate); intros [= <-]; eauto 10.
Qed.

Lemma store_user_on_none (db : Database) (access refresh : pyval) (w : World) :
  store_user db PNone access refresh w = (Ok tt, w).
Proof. reflexivity. Qed.

(** Lines 129-147 on a profile, one branch per outcome of the session. *)
Lemma store_user_on_profile (db : Database)
    (tid login display_name image access refresh : pyval) (w : World) :
  store_user db (user_data tid login display_name image) access refresh w =
  let u := unsaved tid login display_name image access refresh in
  if exec_raises db (log w)
  then (Raise SQLAlchemyError, set_log (log w ++ [EvSelect tid]) w)
  else
    match find (Session.matches tid) (table w ++ pending w) with
    | Some _ => (Ok tt, set_log (log w ++ [EvSelect tid]) w)
    | None =>
        if commit_raises db (log w ++ [EvSelect tid; EvAdd u])
        then (Raise SQLAlchemyError,
              {| table := table w; pending := [];
                 log := log w ++ [EvSelect tid; EvAdd u; EvCommit];
                 draws := draws w |})
        else
          (if refresh_raises db (log w ++ [EvSelect tid; EvAdd u; EvCommit])
           then Raise SQLAlchemyError else Ok tt,
           {| table := Session.insert_all (table w) (pending w ++ [u]);
              pending := [];
              log := log w ++ [EvSelect tid; EvAdd u; EvCommit; EvRefresh];
              draws := draws w |})
    end.
Proof.
  unfold store_user, bind, lift, Session.exec_first, Session.add,
    Session.commit, Session.refresh, set_log, unsaved, ret.
  cbn [Py.truthy user_data Py.getitem Py.lookup String.eqb Ascii.eqb Bool.eqb
       fst snd table pending log draws].
  destruct (exec_raises db (log w)); [reflexivity |].
  destruct (find _ _); [reflexivity |].
  cbv beta. cbn [table pending log draws]. rewrite <- !app_assoc. cbn [app].
  destruct (commit_raises db _); [reflexivity |].
  cbn [table pending log draws]. rewrite <- !app_assoc. cbn [app].
  destruct (refresh_raises db _); reflexivity.
Qed.

Lemma store_user_none (access refresh : pyval) (w : World) :
  store_user Session.reliable PNone access refresh w = (Ok tt, w).
Proof. reflexivity. Qed.

Lemma store_user_profile (tid login display_name image access refresh : pyval) (w : World) :
  store_user Session.reliable (user_data tid login display_name image)
    access refresh w =
  match find (Session.matches tid) (table w ++ pending w) with
  | Some _ => (Ok tt, set_log (log w ++ [EvSelect tid]) w)
  | None =>
      let u := {| id := None; username := login; avatar_url := image;
                  twitch_id := tid; twitch_display_name := display_name;
                  twitch_access_token := access;
                  twitch_refresh_token := refresh |} in
      (Ok tt, {| table := Session.insert_all (table w) (pending w ++ [u]);
                 pending := [];
                 log := log w ++ [EvSelect tid; EvAdd u; EvCommit; EvRefresh];
                 draws := draws w |})
  end.
Proof.
  rewrite store_user_on_profile. cbv zeta.
  cbn [Session.reliable exec_raises commit_raises refresh_raises].
  destruct (find _ _); reflexivity.
Qed.

End Runs.

(** ** The guards of [callback] *)

Lemma list_to_map_empty_nil (l : list (string * string)) :
  (list_to_map l : gmap string string) = ∅ -> l = [].
Proof.
  destruct l as [| [k v] l]; [done |]. simpl. intros H.
  by apply insert_non_empty in H.
Qed.

Lemma QueryParams_len_zero (items : list (string * string)) :
  QueryParams.len items = 0%nat <-> items = [].
Proof.
  unfold QueryParams.len, QueryParams._dict. split.
  - intros H. apply map_size_empty_iff, list_to_map_empty_nil in H.
    apply (f_equal reverse) in H. by rewrite reverse_involutive in H.
  - intros ->. reflexivity.
Qed.

Lemma QueryParams_get_nil (key : string) : QueryParams.get key [] = None.
Proof. reflexivity. Qed.

Lemma falsy_false (s : option string) :
  falsy s = false <-> exists x, s = Some x /\ x <> "".
Proof.
  destruct s as [x |]; simpl.
  - rewrite <- not_true_iff_false, String.eqb_eq. split.
    + intros H. exists x. done.
    + intros (y & [= <-] & H). done.
  - split; [discriminate |]. intros (y & H & _). discriminate.
Qed.

Lemma falsy_none : falsy None = true.
Proof. reflexivity. Qed.

Arguments exchange_form : simpl never.


Lemma route_callback_reliable (settings : Settings) (twitch : Provider)
    (request : Request) :
  route_callback settings twitch request
  = route_callback_on settings twitch Session.reliable request.
Proof. reflexivity. Qed.

Lemma route_callback_on_eq (db : Database) (settings : Settings) (twitch : Provider)
    (request : Request) (w : World) :
  route_callback_on settings twitch db request w =
  ((callback settings twitch db request (new_session w)).1,
   new_session (callback settings twitch db request (new_session w)).2).
Proof.
  unfold route_callback_on, get_session. fold (new_session w).
  destruct (callback settings twitch db request (new_session w)). reflexivity.
Qed.

Lemma route_callback_eq (settings : Settings) (twitch : Provider)
    (request : Request) (w : World) :
  route_callback settings twitch request w =
  ((callback settings twitch Session.reliable request (new_session w)).1,
   new_session (callback settings twitch Session.reliable request (new_session w)).2).
Proof. apply route_callback_on_eq. Qed.

(** The guards let a request through exactly when it passes validation. *)
Lemma callback_guard (db : Database) (settings : Settings) (twitch : Provider)
    (request : Request) (w : World) :
  (~ (exists code state, passes_validation request code state) /\
   exists detail,
     callback settings twitch db request w = (Raise (HTTPException 400 detail), w)) \/
  (exists code state,
     passes_validation request code state /\
     callback settings twitch db request w = exchange_on db settings twitch code w).
Proof.
  destruct (bool_decide (QueryParams.len (query_params request) = 0%nat)) eqn:Elen.
  { left. apply bool_decide_eq_true_1, QueryParams_len_zero in Elen. split.
    - intros (code & state & Hc & _). rewrite Elen in Hc. discriminate.
    - unfold callback. rewrite Elen. simpl. eexists. reflexivity. }
  destruct (falsy (QueryParams.get "code" (query_params request))
            || falsy (QueryParams.get "state" (query_params request))
            || negb (bool_decide (QueryParams.get "state" (query_params request)
                                  = cookies request !! "twitch_state"))) eqn:E.
  - left. split.
    + intros (code & state & Hc & Hc' & Hs & Hs' & Hk).
      rewrite Hc, Hs, Hk in E. simpl in E.
      destruct (String.eqb_spec code ""); [done |].
      destruct (String.eqb_spec state ""); [done |].
      by rewrite bool_decide_eq_true_2 in E.
    + unfold callback. rewrite Elen, E. eexists. reflexivity.
  - right. apply orb_false_iff in E as [E Ek]. apply orb_false_iff in E as [Ec Es].
    apply falsy_false in Ec as (code & Hc & Hc').
    apply falsy_false in Es as (state & Hs & Hs').
    apply negb_false_iff, bool_decide_eq_true_1 in Ek.
    assert (Hv : passes_validation request code state).
    { repeat split; try done. by rewrite <- Ek. }
    exists code, state. split; [exact Hv |].
    unfold callback. rewrite Elen. rewrite Hc, Hs, <- Ek, Hs.
    cbn [falsy default]. destruct (String.eqb_spec code ""); [done |].
    destruct (String.eqb_spec state ""); [done |].
    rewrite bool_decide_eq_true_2 by done. reflexivity.
Qed.

Lemma passes_validation_inj (request : Request) (code state code' state' : string) :
  passes_validation request code state ->
  passes_validation request code' state' ->
  code' = code /\ state' = state.
Proof.
  intros (Hc & _ & Hs & _) (Hc' & _ & Hs' & _).
  rewrite Hc in Hc'. rewrite Hs in Hs'. by simplify_eq.
Qed.

Lemma callback_invalid (db : Database) (settings : Settings) (twitch : Provider)
    (request : Request) (w : World) :
  query_params request = [] \/
  QueryParams.get "code" (query_params request) = None \/
  QueryParams.get "state" (query_params request) = None \/
  QueryParams.get "state" (query_params request) <> cookies request !! "twitch_state" ->
  exists detail,
    callback settings twitch db request w = (Raise (HTTPException 400 detail), w).
Proof.
  intros H.
  destruct (callback_guard db settings twitch request w)
    as [[_ Hrun] | (code & state & (Hc & _ & Hs & _ & Hk) & _)]; [exact Hrun |].
  exfalso. destruct H as [H | [H | [H | H]]].
  - rewrite H in Hc. discriminate.
  - congruence.
  - congruence.
  - congruence.
Qed.

Lemma callback_valid (db : Database) (settings : Settings) (twitch : Provider)
    (request : Request) (code state : string) (w : World) :
  passes_validation request code state ->
  callback settings twitch db request w = exchange_on db settings twitch code w.
Proof.
  intros Hv.
  destruct (callback_guard db settings twitch request w)
    as [[Hnv _] | (code' & state' & Hv' & Hrun)]; [exfalso; eauto |].
  by destruct (passes_validation_inj _ _ _ _ _ Hv Hv') as [-> ->].
Qed.

(** Every path through the body of [callback], one branch per outcome. *)
Lemma exchange_on_run (db : Database) (settings : Settings) (twitch : Provider)
    (code : string) (w : World) :
  exchange_on db settings twitch code w =
  let w1 := set_log (log w ++ token_chain settings twitch code w) w in
  match token_result settings twitch code w with
  | Raise e => (Raise e, w1)
  | Ok r =>
      if status r =? 200 then
        match json r with
        | None => (Raise JSONDecodeError, w1)
        | Some api =>
            match Py.get "access_token" api with
            | Raise e => (Raise e, w1)
            | Ok access =>
                match Py.get "refresh_token" api with
                | Raise e => (Raise e, w1)
                | Ok refresh =>
                    let w2 := set_log
                                (log w ++ twitch_chain settings twitch code access w) w in
                    match users_result settings twitch code access w with
                    | Raise e => (Raise e, w2)
                    | Ok r2 =>
                        if status r2 =? 200 then
                          match json r2 with
                          | None => (Raise JSONDecodeError, w2)
                          | Some body =>
                              match user_data_of body with
                              | Raise e => (Raise e, w2)
                              | Ok user_info =>
                                  match store_user db user_info access refresh w2 with
                                  | (Ok _, w3) => (Ok (frontend_redirect settings), w3)
                                  | (Raise e, w3) => (Raise e, w3)
                                  end
                              end
                          end
                        else (Raise (HTTPException (status r2)
                                       "Failed to fetch user info"), w2)
                    end
                end
            end
        end
      else (Raise (HTTPException (status r) "Failed to fetch tokens"), w1)
  end.
Proof.
  unfold exchange_on, bind. rewrite fetch_twitch_token_run.
  unfold twitch_chain, users_chain, users_result, users_hops, users_first,
    users_first_answer, token_chain, token_result, token_hops, token_answer, token_call.
  cbv zeta.
  generalize (token_endpoint twitch (log w) (exchange_form settings code)).
  intros a1.
  destruct (follow twitch MAX_REDIRECTS POST a1 _) as [[r | e] hops1]; cbn [fst snd];
    [| reflexivity].
  destruct (status r =? 200); [| reflexivity].
  destruct (json r) as [api |]; [| reflexivity].
  unfold lift at 1.
  destruct (Py.get "access_token" api) as [access | e]; [| reflexivity].
  unfold lift at 1.
  destruct (Py.get "refresh_token" api) as [refresh | e]; [| reflexivity].
  rewrite fetch_user_info_run. cbv zeta. unfold set_log. cbn [table pending log draws].
  generalize (users_endpoint twitch
                (log w ++ EvPost TOKEN_URL (exchange_form settings code) a1 :: hops1)
                (users_headers settings access)).
  intros a2.
  destruct (follow twitch MAX_REDIRECTS GET a2 _) as [[r2 | e] hops2]; cbn [fst snd];
    rewrite <- app_assoc; [| reflexivity].
  destruct (status r2 =? 200); [| reflexivity].
  destruct (json r2) as [body |]; [| reflexivity].
  destruct (user_data_of body) as [user_info | e]; [| reflexivity].
  destruct (store_user db user_info access refresh _) as [[[] | e] w3]; reflexivity.
Qed.

(** ** Every path through [callback] *)

Lemma find_matches_none (tid : pyval) (t : list User) :
  (forall u, u ∈ t -> twitch_id u <> tid) ->
  find (Session.matches tid) t = None.
Proof.
  induction t as [| u t IH]; intros H; simpl; [reflexivity |].
  unfold Session.matches at 1.
  destruct (pyval_eqb (twitch_id u) tid) eqn:E.
  - apply pyval_eqb_eq in E. exfalso. apply (H u); [left | done].
  - apply IH. intros u' Hu'. apply H. by right.
Qed.

Lemma find_matches_some (tid : pyval) (t : list User) (u : User) :
  u ∈ t -> twitch_id u = tid ->
  exists u', find (Session.matches tid) t = Some u'.
Proof.
  induction t as [| x t IH]; intros Hin Hid; [by apply elem_of_nil in Hin |].
  simpl. unfold Session.matches at 1.
  destruct (pyval_eqb (twitch_id x) tid) eqn:E; [eauto |].
  apply elem_of_cons in Hin as [-> | Hin]; [| by apply IH].
  apply pyval_eqb_neq in E. done.
Qed.

Lemma find_matches_none_inv (tid : pyval) (t : list User) :
  find (Session.matches tid) t = None ->
  forall u, u ∈ t -> twitch_id u <> tid.
Proof.
  induction t as [| x t IH]; intros Hf u Hin; [by apply elem_of_nil in Hin |].
  simpl in Hf. unfold Session.matches at 1 in Hf.
  destruct (pyval_eqb (twitch_id x) tid) eqn:E; [discriminate |].
  apply elem_of_cons in Hin as [-> | Hin]; [by apply pyval_eqb_neq | by apply IH].
Qed.

Lemma find_matches_some_inv (tid : pyval) (t : list User) (u : User) :
  find (Session.matches tid) t = Some u -> u ∈ t /\ twitch_id u = tid.
Proof.
  induction t as [| x t IH]; [discriminate |]. simpl.
  unfold Session.matches at 1.
  destruct (pyval_eqb (twitch_id x) tid) eqn:E.
  - intros [= <-]. split; [left | by apply pyval_eqb_eq].
  - intros H. destruct (IH H) as [Hin Hid]. split; [by right | done].
Qed.

Lemma insert_one (t : list User) (u : User) :
  Session.insert_all t ([] ++ [u]) = t ++ [Session.with_id (Session.max_id t + 1) u].
Proof. reflexivity. Qed.

Lemma get_of_object (key : string) (api : pyval) :
  (exists tok, api = PDict tok /\ Py.get key api = Ok (default PNone (Py.lookup key tok))) \/
  ((forall tok, api <> PDict tok) /\ Py.get key api = Raise AttributeError).
Proof.
  destruct api; try (right; split; [discriminate | reflexivity]).
  left. eexists. split; reflexivity.
Qed.

Lemma response_eta (r : ClientResponse) (s : Z) (j : option pyval) :
  status r = s -> json r = j -> r = {| status := s; json := j |}.
Proof. destruct r. simpl. by intros -> ->. Qed.

(** Whatever the request, the provider, the database and the table, a
    callback takes one of the paths of [callback_run]. *)
(** What the two calls to Twitch yield depends on the world through its
    trace only. *)
Lemma token_result_log (settings : Settings) (twitch : Provider) (code : string)
    (w1 w2 : World) :
  log w1 = log w2 ->
  token_result settings twitch code w1 = token_result settings twitch code w2.
Proof.
  unfold token_result, token_call, token_answer. intros H. by rewrite H.
Qed.

Lemma token_chain_log (settings : Settings) (twitch : Provider) (code : string)
    (w1 w2 : World) :
  log w1 = log w2 ->
  token_chain settings twitch code w1 = token_chain settings twitch code w2.
Proof.
  unfold token_chain, token_hops, token_call, token_answer. intros H. by rewrite H.
Qed.

Lemma users_result_log (settings : Settings) (twitch : Provider) (code : string)
    (access : pyval) (w1 w2 : World) :
  log w1 = log w2 ->
  users_result settings twitch code access w1
  = users_result settings twitch code access w2.
Proof.
  intros H. unfold users_result, users_first, users_first_answer.
  rewrite (token_chain_log settings twitch code w1 w2 H). by rewrite H.
Qed.

Lemma twitch_chain_log (settings : Settings) (twitch : Provider) (code : string)
    (access : pyval) (w1 w2 : World) :
  log w1 = log w2 ->
  twitch_chain settings twitch code access w1
  = twitch_chain settings twitch code access w2.
Proof.
  intros H. unfold twitch_chain, users_chain, users_hops, users_first, users_first_answer.
  rewrite (token_chain_log settings twitch code w1 w2 H). by rewrite H.
Qed.

Lemma token_result_new_session (settings : Settings) (twitch : Provider)
    (code : string) (w : World) :
  token_result settings twitch code (new_session w) = token_result settings twitch code w.
Proof. by apply token_result_log. Qed.

Lemma token_chain_new_session (settings : Settings) (twitch : Provider)
    (code : string) (w : World) :
  token_chain settings twitch code (new_session w) = token_chain settings twitch code w.
Proof. by apply token_chain_log. Qed.

Lemma users_result_new_session (settings : Settings) (twitch : Provider)
    (code : string) (access : pyval) (w : World) :
  users_result settings twitch code access (new_session w)
  = users_result settings twitch code access w.
Proof. by apply users_result_log. Qed.

Lemma twitch_chain_new_session (settings : Settings) (twitch : Provider)
    (code : string) (access : pyval) (w : World) :
  twitch_chain settings twitch code access (new_session w)
  = twitch_chain settings twitch code access w.
Proof. by apply twitch_chain_log. Qed.

Lemma log_new_session (w : World) : log (new_session w) = log w.
Proof. reflexivity. Qed.

Lemma new_session_set_log (l : list event) (w : World) :
  new_session (set_log (log w ++ l) (new_session w)) = after_events w l.
Proof. reflexivity. Qed.

Lemma exchange_on_path (db : Database) (settings : Settings) (twitch : Provider)
    (request : Request) (code state : string) (w : World)
    (res : Result Response) (w' : World) :
  passes_validation request code state ->
  exchange_on db settings twitch code (new_session w) = (res, w') ->
  callback_run db settings twitch request w res (new_session w').
Proof.
  intros Hv. rewrite exchange_on_run. cbv zeta.
  rewrite token_result_new_session, token_chain_new_session, !log_new_session.
  destruct (token_result settings twitch code w) as [r | e] eqn:T.
  2:{ intros [= <- <-]. rewrite new_session_set_log.
      exact (run_token_error db settings twitch request w code state e Hv T). }
  destruct (status r =? 200) eqn:E1.
  2:{ intros [= <- <-]. rewrite new_session_set_log. apply Z.eqb_neq in E1.
      exact (run_token_refused db settings twitch request w code state r Hv T E1). }
  apply Z.eqb_eq in E1.
  destruct (json r) as [api |] eqn:J1.
  2:{ intros [= <- <-]. rewrite new_session_set_log.
      exact (run_token_undecodable db settings twitch request w code state r Hv T E1 J1). }
  destruct (get_of_object "access_token" api) as [(tok & -> & ->) | [Hno ->]].
  2:{ intros [= <- <-]. rewrite new_session_set_log.
      exact (run_token_not_object db settings twitch request w code state r api
               Hv T E1 J1 Hno). }
  cbn [Py.get].
  rewrite (response_eta r 200 (Some (PDict tok)) E1 J1) in T. clear r E1 J1.
  set (access := default PNone (Py.lookup "access_token" tok)).
  set (refresh := default PNone (Py.lookup "refresh_token" tok)).
  rewrite users_result_new_session, twitch_chain_new_session.
  set (chain := twitch_chain settings twitch code access w).
  destruct (users_result settings twitch code access w) as [r2 | e] eqn:U.
  2:{ intros [= <- <-]. rewrite new_session_set_log.
      exact (run_users_error db settings twitch request w code state tok access e
               Hv T eq_refl U). }
  destruct (status r2 =? 200) eqn:E2.
  2:{ intros [= <- <-]. rewrite new_session_set_log. apply Z.eqb_neq in E2.
      exact (run_users_refused db settings twitch request w code state tok access r2
               Hv T eq_refl U E2). }
  apply Z.eqb_eq in E2.
  destruct (json r2) as [body |] eqn:J2.
  2:{ intros [= <- <-]. rewrite new_session_set_log.
      rewrite (response_eta r2 200 None E2 J2) in U.
      exact (run_users_undecodable db settings twitch request w code state tok access
               Hv T eq_refl U). }
  rewrite (response_eta r2 200 (Some body) E2 J2) in U. clear r2 E2 J2.
  destruct (user_data_of body) as [user_info | e] eqn:Hd.
  2:{ intros [= <- <-]. rewrite new_session_set_log.
      exact (run_users_malformed db settings twitch request w code state tok access
               body e Hv T eq_refl U Hd). }
  destruct (user_data_of_shape body user_info Hd)
    as [-> | (tid & login & display_name & image & ->)].
  { rewrite store_user_on_none. intros [= <- <-]. rewrite new_session_set_log.
    exact (run_no_profile db settings twitch request w code state tok access body
             Hv T eq_refl U Hd). }
  rewrite store_user_on_profile. cbv zeta.
  unfold set_log, new_session. cbn [table pending log draws]. rewrite app_nil_r.
  rewrite <- !app_assoc.
  fold (unsaved tid login display_name image access refresh).
  set (u0 := unsaved tid login display_name image access refresh).
  destruct (exec_raises db (log w ++ chain)) eqn:X.
  { intros [= <- <-].
    exact (run_select_failed db settings twitch request w code state tok access body
             tid login display_name image Hv T eq_refl U Hd X). }
  destruct (find (Session.matches tid) (table w)) as [u |] eqn:Hfind.
  { destruct (find_matches_some_inv tid (table w) u Hfind) as [Hin Hid].
    intros [= <- <-].
    exact (run_known_user db settings twitch request w code state tok access body
             tid login display_name image u Hv T eq_refl U Hd X Hin Hid). }
  pose proof (find_matches_none_inv tid (table w) Hfind) as Hnew.
  destruct (commit_raises db (log w ++ chain ++ [EvSelect tid; EvAdd u0])) eqn:C.
  { intros [= <- <-].
    exact (run_commit_failed db settings twitch request w code state tok access refresh
             body tid login display_name image Hv T eq_refl eq_refl U Hd X Hnew C). }
  destruct (refresh_raises db (log w ++ chain ++ [EvSelect tid; EvAdd u0; EvCommit]))
    eqn:R; intros [= <- <-]; cbn [table pending log draws].
  - exact (run_refresh_failed db settings twitch request w code state tok access refresh
             body tid login display_name image Hv T eq_refl eq_refl U Hd X Hnew C R).
  - exact (run_new_user db settings twitch request w code state tok access refresh
             body tid login display_name image Hv T eq_refl eq_refl U Hd X Hnew C R).
Qed.

(** Whatever the request, the provider, the database and the table, a
    callback takes one of the paths of [callback_run]. *)
Lemma route_callback_on_run (db : Database) (settings : Settings) (twitch : Provider)
    (request : Request) (w : World) :
  callback_run db settings twitch request w
    (route_callback_on settings twitch db request w).1
    (route_callback_on settings twitch db request w).2.
Proof.
  rewrite route_callback_on_eq. cbn [fst snd].
  destruct (callback_guard db settings twitch request (new_session w))
    as [[Hnv [detail ->]] | (code & state & Hv & ->)].
  { exact (run_rejected db settings twitch request w detail Hnv). }
  destruct (exchange_on db settings twitch code (new_session w)) as [res w'] eqn:E.
  exact (exchange_on_path db settings twitch request code state w res w' Hv E).
Qed.

(** ** Calls that are answered without a redirect *)

Lemma events_since_app (w w' : World) (evs : list event) :
  log w' = log w ++ evs -> events_since w w' = evs.
Proof. unfold events_since. intros ->. by rewrite drop_app_length. Qed.

Lemma events_since_after_events (w : World) (evs : list event) :
  events_since w (after_events w evs) = evs.
Proof. by apply events_since_app. Qed.

Lemma events_since_after_insert (w : World) (row : User) (evs : list event) :
  events_since w (after_insert w row evs) = evs.
Proof. by apply events_since_app. Qed.

Lemma events_since_new_session (w : World) : events_since w (new_session w) = [].
Proof. apply events_since_app. simpl. by rewrite app_nil_r. Qed.

Lemma is_redirect_200 : is_redirect 200 = false.
Proof. reflexivity. Qed.

(** When the token endpoint answers with no redirect, its answer is what
    the POST yields and the POST is all the client sent. *)
Lemma token_direct (settings : Settings) (twitch : Provider) (code : string) (w : World) :
  is_redirect (status (token_answer settings twitch code w)) = false ->
  token_result settings twitch code w = Ok (token_answer settings twitch code w) /\
  token_chain settings twitch code w = [token_call settings twitch code w].
Proof.
  intros H. unfold token_result, token_chain, token_hops.
  by rewrite (follow_not_redirect twitch _ _ _ _ H).
Qed.

(** The same for the GET that follows such a POST. *)
Lemma users_direct (settings : Settings) (twitch : Provider) (code : string)
    (access : pyval) (w : World) :
  is_redirect (status (token_answer settings twitch code w)) = false ->
  is_redirect (status (users_answer settings twitch code access w)) = false ->
  users_result settings twitch code access w
    = Ok (users_answer settings twitch code access w) /\
  twitch_chain settings twitch code access w
    = [token_call settings twitch code w; users_call settings twitch code access w].
Proof.
  intros Ht Hu. destruct (token_direct settings twitch code w Ht) as [_ Hc].
  unfold users_result, twitch_chain, users_chain, users_hops, users_first,
    users_first_answer. rewrite Hc.
  fold (users_headers settings access).
  change (users_endpoint twitch (log w ++ [token_call settings twitch code w])
            (users_headers settings access))
    with (users_answer settings twitch code access w).
  by rewrite (follow_not_redirect twitch _ _ _ _ Hu).
Qed.

(** The first request of the GET is the one [users_call] names whenever
    the POST before it was answered with no redirect. *)
Lemma users_first_direct (settings : Settings) (twitch : Provider) (code : string)
    (access : pyval) (w : World) :
  is_redirect (status (token_answer settings twitch code w)) = false ->
  users_first settings twitch code access w = users_call settings twitch code access w.
Proof.
  intros Ht. destruct (token_direct settings twitch code w Ht) as [_ Hc].
  unfold users_first, users_first_answer. by rewrite Hc.
Qed.

(** The run of a callback that gets through its guards and both calls to
    Twitch: what is left is the lookup and, perhaps, the insert. *)
Lemma route_callback_success (settings : Settings) (twitch : Provider)
    (request : Request) (code state : string)
    (tok : list (string * pyval)) (body user_info : pyval) (w : World) :
  passes_validation request code state ->
  token_answer settings twitch code w = {| status := 200; json := Some (PDict tok) |} ->
  users_answer settings twitch code (default PNone (Py.lookup "access_token" tok)) w
    = {| status := 200; json := Some body |} ->
  user_data_of body = Ok user_info ->
  route_callback settings twitch request w =
  let access := default PNone (Py.lookup "access_token" tok) in
  let refresh := default PNone (Py.lookup "refresh_token" tok) in
  let w2 := set_log (log w ++ [token_call settings twitch code w;
                               users_call settings twitch code access w])
                    (new_session w) in
  match store_user Session.reliable user_info access refresh w2 with
  | (Ok _, w3) => (Ok (frontend_redirect settings), new_session w3)
  | (Raise e, w3) => (Raise e, new_session w3)
  end.
Proof.
  intros Hv Ht Hu Hd. rewrite route_callback_eq.
  rewrite (callback_valid Session.reliable settings twitch request code state _ Hv).
  rewrite exchange_on_run. cbv zeta.
  rewrite token_result_new_session, token_chain_new_session, !log_new_session.
  assert (Hnr : is_redirect (status (token_answer settings twitch code w)) = false)
    by (by rewrite Ht).
  destruct (token_direct settings twitch code w Hnr) as [-> _].
  rewrite Ht. cbn [status json]. change (200 =? 200) with true. cbv iota.
  cbn [Py.get].
  set (access := default PNone (Py.lookup "access_token" tok)) in *.
  set (refresh := default PNone (Py.lookup "refresh_token" tok)).
  rewrite users_result_new_session, twitch_chain_new_session.
  assert (Hnr' : is_redirect (status (users_answer settings twitch code access w)) = false)
    by (by rewrite Hu).
  destruct (users_direct settings twitch code access w Hnr Hnr') as [-> ->].
  rewrite Hu. cbn [status json]. change (200 =? 200) with true. cbv iota.
  rewrite Hd.
  destruct (store_user _ _ _ _ _) as [[[] | e] w3]; reflexivity.
Qed.

(** ** Claims about [callback] *)

(** C1. A callback whose query string is empty, or that lacks [code] or
    [state], or whose [state] differs from the [twitch_state] cookie (an
    absent cookie included), fails with status 400; it adds nothing to
    the trace, so it neither reads nor writes the database, and the users
    table is the one it started with. *)
Theorem callback_rejects_bad_request (settings : Settings) (twitch : Provider)
    (request : Request) (w : World) :
  query_params request = [] \/
  QueryParams.get "code" (query_params request) = None \/
  QueryParams.get "state" (query_params request) = None \/
  QueryParams.get "state" (query_params request) <> cookies request !! "twitch_state" ->
  exists detail w',
    route_callback settings twitch request w = (Raise (HTTPException 400 detail), w') /\
    table w' = table w /\
    events_since w w' = [].
Proof.
  intros H. rewrite route_callback_eq.
  destruct (callback_invalid Session.reliable settings twitch request (new_session w) H)
    as [detail ->].
  exists detail, (new_session (new_session w)). split; [reflexivity |].
  split; [reflexivity |]. by apply events_since_app; rewrite app_nil_r.
Qed.

Lemma callback_rejects_bad_request_witness :
  exists detail w',
    route_callback Sample.settings Sample.twitch Sample.forged_request
      Sample.world_with_bob = (Raise (HTTPException 400 detail), w') /\
    table w' = table Sample.world_with_bob /\
    events_since Sample.world_with_bob w' = [].
Proof.
  apply (callback_rejects_bad_request Sample.settings Sample.twitch
           Sample.forged_request Sample.world_with_bob).
  right. right. right. vm_compute. discriminate.
Defined.


(** The insert path of [callback]. *)
Lemma route_callback_new_profile (settings : Settings) (twitch : Provider)
    (request : Request) (code state : string)
    (tok : list (string * pyval)) (body tid login display_name image : pyval)
    (w : World) :
  passes_validation request code state ->
  token_answer settings twitch code w = {| status := 200; json := Some (PDict tok) |} ->
  users_answer settings twitch code (default PNone (Py.lookup "access_token" tok)) w
    = {| status := 200; json := Some body |} ->
  user_data_of body = Ok (user_data tid login display_name image) ->
  (forall u, u ∈ table w -> twitch_id u <> tid) ->
  exists r w',
    route_callback settings twitch request w = (Ok r, w') /\
    table w' = table w ++
      [new_row (Session.max_id (table w) + 1) tid login display_name image
         (default PNone (Py.lookup "access_token" tok))
         (default PNone (Py.lookup "refresh_token" tok))].
Proof.
  intros Hv Ht Hu Hd Hnew.
  rewrite (route_callback_success settings twitch request code state tok body _ w Hv Ht Hu Hd).
  cbv zeta. rewrite store_user_profile.
  change (table (set_log ?l (new_session w))) with (table w).
  change (pending (set_log ?l (new_session w))) with (@nil User).
  rewrite app_nil_r, (find_matches_none tid (table w) Hnew).
  cbv zeta. do 2 eexists. split; [reflexivity |].
  unfold new_session. simpl table. apply insert_one.
Qed.

(** C2. A callback that gets through validation and both calls to Twitch,
    with a profile whose [twitch_id] no row carries, answers normally and
    leaves the table with exactly one more row: the profile fields
    ([twitch_id], [username], [twitch_display_name], [avatar_url]) and the
    token pair of the token endpoint, under a new id. *)
Theorem callback_creates_new_user (settings : Settings) (twitch : Provider)
    (request : Request) (code state : string)
    (tok : list (string * pyval)) (body tid login display_name image : pyval)
    (w : World) :
  passes_validation request code state ->
  token_answer settings twitch code w = {| status := 200; json := Some (PDict tok) |} ->
  users_answer settings twitch code (default PNone (Py.lookup "access_token" tok)) w
    = {| status := 200; json := Some body |} ->
  user_data_of body = Ok (user_data tid login display_name image) ->
  (forall u, u ∈ table w -> twitch_id u <> tid) ->
  exists r w',
    route_callback settings twitch request w = (Ok r, w') /\
    table w' = table w ++
      [new_row (Session.max_id (table w) + 1) tid login display_name image
         (default PNone (Py.lookup "access_token" tok))
         (default PNone (Py.lookup "refresh_token" tok))].
Proof.
  apply route_callback_new_profile.
Qed.

Lemma callback_creates_new_user_witness :
  exists r w',
    route_callback Sample.settings Sample.twitch Sample.good_request
      Sample.empty_world = (Ok r, w') /\
    table w' = table Sample.empty_world ++
      [new_row (Session.max_id (table Sample.empty_world) + 1)
         (PStr "42") (PStr "bob") (PStr "Bob") (PStr "http://img/bob.png")
         (default PNone (Py.lookup "access_token"
                           [("access_token", PStr "AT"); ("refresh_token", PStr "RT");
                            ("expires_in", PInt 3600)]))
         (default PNone (Py.lookup "refresh_token"
                           [("access_token", PStr "AT"); ("refresh_token", PStr "RT");
                            ("expires_in", PInt 3600)]))].
Proof.
  apply (callback_creates_new_user Sample.settings Sample.twitch
           Sample.good_request "abc" "xyz"
           [("access_token", PStr "AT"); ("refresh_token", PStr "RT");
            ("expires_in", PInt 3600)]
           Sample.users_body (PStr "42") (PStr "bob") (PStr "Bob")
           (PStr "http://img/bob.png") Sample.empty_world).
  - repeat split; try discriminate; vm_compute; reflexivity.
  - reflexivity.
  - reflexivity.
  - reflexivity.
  - intros u Hu. simpl in Hu. by apply elem_of_nil in Hu.
Defined.

(** C3. A callback that gets through validation and both calls to Twitch,
    with a profile whose [twitch_id] a row already carries, inserts
    nothing and changes nothing: the table is the one it started with, no
    write reaches the database, and the answer is still the redirect to
    the frontend URL. *)
Theorem callback_keeps_existing_user (settings : Settings) (twitch : Provider)
    (request : Request) (code state : string)
    (tok : list (string * pyval)) (body tid login display_name image : pyval)
    (u : User) (w : World) :
  passes_validation request code state ->
  token_answer settings twitch code w = {| status := 200; json := Some (PDict tok) |} ->
  users_answer settings twitch code (default PNone (Py.lookup "access_token" tok)) w
    = {| status := 200; json := Some body |} ->
  user_data_of body = Ok (user_data tid login display_name image) ->
  u ∈ table w -> twitch_id u = tid ->
  exists r w',
    route_callback settings twitch request w = (Ok r, w') /\
    table w' = table w /\
    (forall e, e ∈ events_since w w' -> is_db_write e = false) /\
    url r = FRONTEND_URL settings +:+ "/configurator".
Proof.
  intros Hv Ht Hu Hd Hin Hid.
  rewrite (route_callback_success settings twitch request code state tok body _ w Hv Ht Hu Hd).
  cbv zeta. rewrite store_user_profile.
  change (table (set_log ?l (new_session w))) with (table w).
  change (pending (set_log ?l (new_session w))) with (@nil User).
  rewrite app_nil_r.
  destruct (find_matches_some tid (table w) u Hin Hid) as [u' ->].
  do 2 eexists. split; [reflexivity |]. split; [reflexivity |]. split; [| reflexivity].
  intros e He. erewrite events_since_app in He.
  2:{ simpl log. rewrite <- app_assoc. reflexivity. }
  simpl in He.
  repeat (apply elem_of_cons in He as [-> | He]; [reflexivity |]).
  by apply elem_of_nil in He.
Qed.

Lemma callback_keeps_existing_user_witness :
  exists r w',
    route_callback Sample.settings Sample.twitch Sample.good_request
      Sample.world_with_bob = (Ok r, w') /\
    table w' = table Sample.world_with_bob /\
    (forall e, e ∈ events_since Sample.world_with_bob w' -> is_db_write e = false) /\
    url r = FRONTEND_URL Sample.settings +:+ "/configurator".
Proof.
  apply (callback_keeps_existing_user Sample.settings Sample.twitch
           Sample.good_request "abc" "xyz"
           [("access_token", PStr "AT"); ("refresh_token", PStr "RT");
            ("expires_in", PInt 3600)]
           Sample.users_body (PStr "42") (PStr "bob") (PStr "Bob")
           (PStr "http://img/bob.png") Sample.bob Sample.world_with_bob).
  - repeat split; try discriminate; vm_compute; reflexivity.
  - reflexivity.
  - reflexivity.
  - reflexivity.
  - simpl. left.
  - reflexivity.
Defined.


(** C6, as the specification states it, fails on a plain successful
    login: the request gets through validation, both calls to Twitch
    answer 200, and the answer is not a 302. *)
Lemma callback_redirect_is_not_302 :
  passes_validation Sample.good_request "abc" "xyz" /\
  status (token_answer Sample.settings Sample.twitch "abc" Sample.empty_world) = 200 /\
  status (users_answer Sample.settings Sample.twitch "abc" (PStr "AT")
            Sample.empty_world) = 200 /\
  ~ exists r w',
      route_callback Sample.settings Sample.twitch Sample.good_request
        Sample.empty_world = (Ok r, w') /\
      status_code r = 302.
Proof.
  split; [repeat split; try discriminate; vm_compute; reflexivity |].
  split; [reflexivity |]. split; [reflexivity |].
  intros (r & w' & H & Hs). vm_compute in H.
  injection H as <- _. discriminate Hs.
Qed.

(** C6, amended. A callback that gets through validation and both calls
    to Twitch answers with a redirect to [FRONTEND_URL + "/configurator"]
    that clears the [twitch_state] cookie, whatever [fetch_user_info]
    returned: a new profile, a known one, or none.  The redirect has the
    status [RedirectResponse] gives by default, 307. *)
Theorem callback_redirects_to_frontend (settings : Settings) (twitch : Provider)
    (request : Request) (code state : string)
    (tok : list (string * pyval)) (body user_info : pyval) (w : World) :
  passes_validation request code state ->
  token_answer settings twitch code w = {| status := 200; json := Some (PDict tok) |} ->
  users_answer settings twitch code (default PNone (Py.lookup "access_token" tok)) w
    = {| status := 200; json := Some body |} ->
  user_data_of body = Ok user_info ->
  exists r w',
    route_callback settings twitch request w = (Ok r, w') /\
    status_code r = 307 /\
    url r = FRONTEND_URL settings +:+ "/configurator" /\
    set_cookie_headers r =
      [{| cookie_key := "twitch_state"; cookie_value := "";
          max_age := Some 0; expires := Some 0 |}].
Proof.
  intros Hv Ht Hu Hd.
  rewrite (route_callback_success settings twitch request code state tok body _ w Hv Ht Hu Hd).
  cbv zeta.
  destruct (user_data_of_shape body user_info Hd)
    as [-> | (tid & login & display_name & image & ->)].
  - rewrite store_user_none. do 2 eexists. repeat split.
  - rewrite store_user_profile. destruct (find _ _); do 2 eexists; repeat split.
Qed.

Lemma callback_redirects_to_frontend_witness :
  exists r w',
    route_callback Sample.settings Sample.twitch Sample.good_request
      Sample.world_with_bob = (Ok r, w') /\
    status_code r = 307 /\
    url r = FRONTEND_URL Sample.settings +:+ "/configurator" /\
    set_cookie_headers r =
      [{| cookie_key := "twitch_state"; cookie_value := "";
          max_age := Some 0; expires := Some 0 |}].
Proof.
  apply (callback_redirects_to_frontend Sample.settings Sample.twitch
           Sample.good_request "abc" "xyz"
           [("access_token", PStr "AT"); ("refresh_token", PStr "RT");
            ("expires_in", PInt 3600)]
           Sample.users_body
           (user_data (PStr "42") (PStr "bob") (PStr "Bob") (PStr "http://img/bob.png"))
           Sample.world_with_bob).
  - repeat split; try discriminate; vm_compute; reflexivity.
  - reflexivity.
  - reflexivity.
  - reflexivity.
Defined.


(** ** What the trace of a callback tells *)

Lemma db_access_no_status (e : event) :
  is_db_access e = true -> upstream_status e = None.
Proof. by destruct e. Qed.

Lemma follow_no_db (e : event) : is_follow e = true -> is_db_access e = false.
Proof. by destruct e. Qed.

Ltac in_list H :=
  repeat (apply elem_of_cons in H as [-> | H]); [.. | by apply elem_of_nil in H].

Lemma in_twitch_chain (settings : Settings) (twitch : Provider) (code : string)
    (access : pyval) (w : World) (e : event) :
  e ∈ twitch_chain settings twitch code access w ->
  e ∈ token_chain settings twitch code w \/
  e ∈ users_chain settings twitch code access w.
Proof. unfold twitch_chain. apply elem_of_app. Qed.

(** The requests of a call are no database events. *)
Lemma token_chain_no_db (settings : Settings) (twitch : Provider) (code : string)
    (w : World) (e : event) :
  e ∈ token_chain settings twitch code w -> is_db_access e = false.
Proof.
  unfold token_chain, token_hops. intros He.
  apply elem_of_cons in He as [-> | He]; [reflexivity |].
  by apply follow_hops, follow_no_db in He.
Qed.

Lemma users_chain_no_db (settings : Settings) (twitch : Provider) (code : string)
    (access : pyval) (w : World) (e : event) :
  e ∈ users_chain settings twitch code access w -> is_db_access e = false.
Proof.
  unfold users_chain, users_hops. intros He.
  apply elem_of_cons in He as [-> | He]; [reflexivity |].
  by apply follow_hops, follow_no_db in He.
Qed.

Lemma twitch_chain_no_db (settings : Settings) (twitch : Provider) (code : string)
    (access : pyval) (w : World) (e : event) :
  e ∈ twitch_chain settings twitch code access w -> is_db_access e = false.
Proof.
  intros He. apply in_twitch_chain in He as [He | He];
    [by eapply token_chain_no_db | by eapply users_chain_no_db].
Qed.

(** An answer within a call that is no redirect is the answer the call
    ends with. *)
Lemma token_chain_status (settings : Settings) (twitch : Provider) (code : string)
    (w : World) (e : event) (s : Z) :
  e ∈ token_chain settings twitch code w ->
  upstream_status e = Some s ->
  is_redirect s = false ->
  exists r, token_result settings twitch code w = Ok r /\ status r = s.
Proof.
  unfold token_chain, token_result, token_hops. intros He Hs Hno.
  apply follow_final; [| exact Hno].
  apply elem_of_cons in He as [-> | He]; [left; by injection Hs | right; eauto].
Qed.

Lemma users_chain_status (settings : Settings) (twitch : Provider) (code : string)
    (access : pyval) (w : World) (e : event) (s : Z) :
  e ∈ users_chain settings twitch code access w ->
  upstream_status e = Some s ->
  is_redirect s = false ->
  exists r, users_result settings twitch code access w = Ok r /\ status r = s.
Proof.
  unfold users_chain, users_result, users_hops. intros He Hs Hno.
  apply follow_final; [| exact Hno].
  apply elem_of_cons in He as [-> | He]; [left; by injection Hs | right; eauto].
Qed.

(** Case analysis on the path a callback took. *)
Ltac callback_paths db settings twitch request w :=
  let Hrun := fresh "Hrun" in
  pose proof (route_callback_on_run db settings twitch request w) as Hrun;
  destruct (route_callback_on settings twitch db request w) as [?res ?w'];
  cbn [fst snd] in *;
  inversion Hrun; subst; clear Hrun;
  rewrite ?events_since_new_session, ?events_since_after_events,
    ?events_since_after_insert in *.

(** Two equations on the result of the same call. *)
Ltac same_call :=
  repeat match goal with
         | H1 : token_result ?s ?t ?c ?w = _, H2 : token_result ?s ?t ?c ?w = _ |- _ =>
             rewrite H1 in H2
         | H1 : users_result ?s ?t ?c ?a ?w = _, H2 : users_result ?s ?t ?c ?a ?w = _ |- _ =>
             rewrite H1 in H2
         end.

(** Where in the trace of a callback an event lies. *)
Ltac split_trace He :=
  repeat match type of He with
         | _ ∈ _ ++ _ => apply elem_of_app in He as [He | He]
         | _ ∈ twitch_chain _ _ _ _ _ => apply in_twitch_chain in He as [He | He]
         end.




(** The same on a database that answers every call. *)
Ltac reliable_paths settings twitch request w :=
  rewrite ?route_callback_reliable in *;
  callback_paths Session.reliable settings twitch request w;
  try match goal with
      | H : exec_raises Session.reliable _ = true |- _ => discriminate H
      | H : commit_raises Session.reliable _ = true |- _ => discriminate H
      | H : refresh_raises Session.reliable _ = true |- _ => discriminate H
      end.

(** Once the answers of Twitch are known, the paths on which they are
    others are gone. *)
Ltac known_answers :=
  same_call; simplify_eq; cbn [status json] in *; simplify_eq; try done;
  try (exfalso; match goal with H : forall t, _ <> PDict t |- _ => by eapply H end).

(** The path taken is one of a request that passed validation with the
    code [code]. *)
Ltac same_request Hv :=
  try match goal with
      | Hnv : ~ (exists code state, passes_validation _ code state) |- _ =>
          exfalso; apply Hnv; eauto
      end;
  try match goal with
      | Hv' : passes_validation _ _ _ |- _ =>
          lazymatch type of Hv with
          | passes_validation ?r ?c ?s =>
              lazymatch type of Hv' with
              | passes_validation r c s => fail
              | _ => destruct (passes_validation_inj _ _ _ _ _ Hv Hv') as [-> ->]
              end
          end
      end.

(** The trace of a callback that got the token body [tok] starts with the
    two calls to Twitch, the second carrying what [get("access_token")]
    gave. *)
Lemma callback_trace_after_token (settings : Settings) (twitch : Provider)
    (request : Request) (code state : string) (tok : list (string * pyval))
    (w : World) :
  passes_validation request code state ->
  token_answer settings twitch code w = {| status := 200; json := Some (PDict tok) |} ->
  exists rest,
    events_since w (route_callback settings twitch request w).2 =
    token_call settings twitch code w ::
    users_call settings twitch code (default PNone (Py.lookup "access_token" tok)) w ::
    rest.
Proof.
  intros Hv Ht.
  assert (Hnr : is_redirect (status (token_answer settings twitch code w)) = false)
    by (by rewrite Ht).
  destruct (token_direct settings twitch code w Hnr) as [Htr Hch]. rewrite Ht in Htr.
  pose proof (users_first_direct settings twitch code) as Hfirst.
  reliable_paths settings twitch request w; same_request Hv; known_answers;
    unfold twitch_chain, users_chain; rewrite Hch, (Hfirst _ w Hnr);
    eexists; reflexivity.
Qed.

(** C10. The body of a 200 answer of the token endpoint is not validated.
    When it lacks [access_token] or [refresh_token], [get] gives [None]
    for the missing one and the callback goes on: the user-info endpoint
    is called next, with that access token as the bearer ([None] when it
    is missing), and if a profile with a new [twitch_id] comes back all
    the same, the row that is inserted has the missing values, [None],
    in its token columns. *)
Theorem callback_accepts_missing_tokens (settings : Settings) (twitch : Provider)
    (request : Request) (code state : string) (tok : list (string * pyval))
    (w : World) :
  passes_validation request code state ->
  token_answer settings twitch code w = {| status := 200; json := Some (PDict tok) |} ->
  Py.lookup "access_token" tok = None \/ Py.lookup "refresh_token" tok = None ->
  exists access refresh,
    Py.get "access_token" (PDict tok) = Ok access /\
    Py.get "refresh_token" (PDict tok) = Ok refresh /\
    (Py.lookup "access_token" tok = None -> access = PNone) /\
    (Py.lookup "refresh_token" tok = None -> refresh = PNone) /\
    (exists rest,
       events_since w (route_callback settings twitch request w).2 =
       token_call settings twitch code w ::
       EvGet USERS_URL {| bearer := access; Client_Id := TWITCH_CLIENT_ID settings |}
         (users_answer settings twitch code access w) :: rest) /\
    (forall body tid login display_name image,
       users_answer settings twitch code access w
         = {| status := 200; json := Some body |} ->
       user_data_of body = Ok (user_data tid login display_name image) ->
       (forall u, u ∈ table w -> twitch_id u <> tid) ->
       exists r w',
         route_callback settings twitch request w = (Ok r, w') /\
         table w' = table w ++
           [new_row (Session.max_id (table w) + 1) tid login display_name image
              access refresh]).
Proof.
  intros Hv Ht Hmissing.
  exists (default PNone (Py.lookup "access_token" tok)),
         (default PNone (Py.lookup "refresh_token" tok)).
  split; [reflexivity |]. split; [reflexivity |].
  split; [by intros -> |]. split; [by intros -> |]. split.
  - apply (callback_trace_after_token settings twitch request code state tok w Hv Ht).
  - intros body tid login display_name image Hu Hd Hnew.
    apply (route_callback_new_profile settings twitch request code state tok body
             tid login display_name image w Hv Ht Hu Hd Hnew).
Qed.

Lemma callback_accepts_missing_tokens_witness :
  exists access refresh,
    Py.get "access_token" (PDict []) = Ok access /\
    Py.get "refresh_token" (PDict []) = Ok refresh /\
    (Py.lookup "access_token" [] = None -> access = PNone) /\
    (Py.lookup "refresh_token" [] = None -> refresh = PNone) /\
    (exists rest,
       events_since Sample.empty_world
         (route_callback Sample.settings Sample.twitch_without_tokens
            Sample.good_request Sample.empty_world).2 =
       token_call Sample.settings Sample.twitch_without_tokens "abc" Sample.empty_world ::
       EvGet USERS_URL
         {| bearer := access; Client_Id := TWITCH_CLIENT_ID Sample.settings |}
         (users_answer Sample.settings Sample.twitch_without_tokens "abc" access
            Sample.empty_world) :: rest) /\
    (forall body tid login display_name image,
       users_answer Sample.settings Sample.twitch_without_tokens "abc" access
         Sample.empty_world = {| status := 200; json := Some body |} ->
       user_data_of body = Ok (user_data tid login display_name image) ->
       (forall u, u ∈ table Sample.empty_world -> twitch_id u <> tid) ->
       exists r w',
         route_callback Sample.settings Sample.twitch_without_tokens
           Sample.good_request Sample.empty_world = (Ok r, w') /\
         table w' = table Sample.empty_world ++
           [new_row (Session.max_id (table Sample.empty_world) + 1)
              tid login display_name image access refresh]).
Proof.
  apply (callback_accepts_missing_tokens Sample.settings Sample.twitch_without_tokens
           Sample.good_request "abc" "xyz" [] Sample.empty_world).
  - repeat split; try discriminate; vm_compute; reflexivity.
  - reflexivity.
  - left. reflexivity.
Defined.


(** ** The state token of [twitch_login] *)

Lemma string_get_mem (s : string) (i : nat) :
  (i < String.length s)%nat ->
  exists c, String.get i s = Some c /\ Urllib.mem c s = true.
Proof.
  revert i. induction s as [| a s IH]; intros i Hi; simpl in Hi; [lia |].
  destruct i as [| i]; simpl.
  - exists a. by rewrite Ascii.eqb_refl.
  - destruct (IH i) as (c & Hc & Hm); [lia |].
    exists c. rewrite Hm. by rewrite orb_true_r.
Qed.

Lemma round53_bounds (m n : Z) :
  0 <= m -> 0 < n -> m + n <= n * 2 ^ 53 -> 0 <= round53 m < n * 2 ^ 53.
Proof.
  intros Hm Hn0 Hn. unfold round53.
  destruct (Z.leb_spec (Z.log2 m - 52) 0) as [He | He]; [lia |].
  assert (Hpos : 0 < m).
  { destruct (Z.eq_dec m 0) as [-> | ]; [| lia]. simpl in He. lia. }
  destruct (Z.log2_spec m Hpos) as [Hlo Hhi].
  set (h := 2 ^ (Z.log2 m - 52 - 1)).
  assert (Hh : 0 < h) by (apply Z.pow_pos_nonneg; lia).
  assert (H2h : 2 ^ (Z.log2 m - 52) = 2 * h).
  { unfold h. rewrite <- Z.pow_succ_r by lia. f_equal. lia. }
  assert (HL : 2 ^ Z.log2 m = h * 2 ^ 53).
  { unfold h. rewrite <- Z.pow_add_r by lia. f_equal. lia. }
  rewrite H2h.
  pose proof (Z.div_mod m (2 * h) ltac:(lia)) as Hdiv.
  pose proof (Z.mod_pos_bound m (2 * h) ltac:(lia)) as Hmod.
  assert (Hq : 0 <= m / (2 * h)) by (apply Z.div_pos; lia).
  assert (Hhn : h < n) by nia.
  destruct (_ || _) eqn:Hup.
  - split; [nia |].
    assert (h <= m mod (2 * h)).
    { apply orb_true_iff in Hup as [Hup | Hup].
      - apply Z.ltb_lt in Hup. lia.
      - apply andb_true_iff in Hup as [Hup _]. apply Z.eqb_eq in Hup. lia. }
    nia.
  - split; nia.
Qed.

Lemma random_index_in_range (r : Z) (n : nat) :
  (0 < n)%nat ->
  (Z.to_nat (floor_mul (r mod 2 ^ 53) (Z.of_nat n)) < n)%nat.
Proof.
  intros Hn.
  assert (H53 : 0 < 2 ^ 53) by lia.
  pose proof (Z.mod_pos_bound r (2 ^ 53) H53) as [Hlo Hhi].
  assert (0 <= floor_mul (r mod 2 ^ 53) (Z.of_nat n) < Z.of_nat n); [| lia].
  unfold floor_mul.
  destruct (round53_bounds (r mod 2 ^ 53 * Z.of_nat n) (Z.of_nat n)) as [Hr0 Hr1];
    [nia | lia | nia |].
  split; [apply Z.div_pos; lia |].
  apply Z.div_lt_upper_bound; lia.
Qed.

(** [random.choices] never fails on a non-empty population: it returns
    [k] of its characters and consumes [k] draws. *)
Lemma choices_run (rnd : nat -> Z) (population : string) (k : nat) (w : World) :
  (0 < String.length population)%nat ->
  exists cs,
    choices rnd population k w = (Ok cs, advance k w) /\
    length cs = k /\
    Forall (fun c => Urllib.mem c population = true) cs.
Proof.
  intros Hn. revert w. induction k as [| k IH]; intros w.
  - exists []. repeat split; [| constructor].
    unfold advance. rewrite Nat.add_0_r. by destruct w.
  - cbn [choices]. unfold bind at 1, random.
    destruct (string_get_mem population
                (Z.to_nat (floor_mul (rnd (draws w) mod 2 ^ 53)
                             (Z.of_nat (String.length population)))))
      as (c & Hc & Hm); [by apply random_index_in_range |].
    rewrite Hc. unfold bind at 1, lift at 1.
    set (w1 := {| table := table w; pending := pending w; log := log w;
                  draws := S (draws w) |}).
    destruct (IH w1) as (cs & Hrun & Hlen & Hall).
    unfold bind at 1. rewrite Hrun. exists (c :: cs). repeat split.
    + unfold ret, advance, w1. simpl. do 3 f_equal. lia.
    + simpl. by rewrite Hlen.
    + by constructor.
Qed.

Lemma length_string_of_list_ascii (cs : list ascii) :
  String.length (string_of_list_ascii cs) = length cs.
Proof. induction cs as [| c cs IH]; simpl; [done | by rewrite IH]. Qed.

Lemma str_all_of_list (p : ascii -> bool) (cs : list ascii) :
  Forall (fun c => p c = true) cs -> str_all p (string_of_list_ascii cs) = true.
Proof.
  induction 1 as [| c cs Hc _ IH]; simpl; [done |]. by rewrite Hc, IH.
Qed.

Lemma alphabet_is_alnum (c : ascii) :
  Urllib.mem c (ascii_letters +:+ digits) = true -> alnum c = true.
Proof.
  destruct c as [[] [] [] [] [] [] [] []]; vm_compute; intros H;
    first [reflexivity | discriminate H].
Qed.

Lemma generate_random_string_run (rnd : nat -> Z) (n : Z) (w : World) :
  exists s,
    generate_random_string rnd n w = (Ok s, advance (Z.to_nat n) w) /\
    String.length s = Z.to_nat n /\
    str_all alnum s = true.
Proof.
  unfold generate_random_string, bind.
  destruct (choices_run rnd (ascii_letters +:+ digits) (Z.to_nat n) w)
    as (cs & -> & Hlen & Hall); [vm_compute; lia |].
  exists (string_of_list_ascii cs). split; [reflexivity |]. split.
  - by rewrite length_string_of_list_ascii.
  - apply str_all_of_list. eapply Forall_impl; [exact Hall |].
    intros c. apply alphabet_is_alnum.
Qed.

Lemma twitch_login_run (settings : Settings) (rnd : nat -> Z) (w : World) :
  exists state,
    generate_random_string rnd 16 w = (Ok state, advance 16 w) /\
    String.length state = 16%nat /\
    str_all alnum state = true /\
    twitch_login settings rnd w =
    (Ok (set_cookie "twitch_state" state
           (RedirectResponse
              ("https://id.twitch.tv/oauth2/authorize?" +:+
               Urllib.urlencode [("response_type", "code");
                                 ("client_id", TWITCH_CLIENT_ID settings);
                                 ("redirect_uri", REDIRECT_URI settings);
                                 ("state", state)]))),
     advance 16 w).
Proof.
  destruct (generate_random_string_run rnd 16 w) as (state & Hrun & Hlen & Hall).
  exists state. split; [exact Hrun |]. split; [exact Hlen |]. split; [exact Hall |].
  unfold twitch_login, bind. rewrite Hrun. reflexivity.
Qed.

(** C8. For a length [n >= 0], [generate_random_string] returns a string
    of exactly [n] characters, each from [[A-Za-z0-9]]; the state token
    that [twitch_login] generates and sets as the [twitch_state] cookie
    is such a string of 16 characters. *)
Theorem generate_random_string_alnum (settings : Settings) (rnd : nat -> Z)
    (n : Z) (w : World) :
  0 <= n ->
  (exists s w',
     generate_random_string rnd n w = (Ok s, w') /\
     Z.of_nat (String.length s) = n /\
     str_all alnum s = true) /\
  (exists state r w1 w',
     generate_random_string rnd 16 w = (Ok state, w1) /\
     twitch_login settings rnd w = (Ok r, w') /\
     set_cookie_headers r =
       [{| cookie_key := "twitch_state"; cookie_value := state;
           max_age := None; expires := None |}] /\
     String.length state = 16%nat /\
     str_all alnum state = true).
Proof.
  intros Hn. split.
  - destruct (generate_random_string_run rnd n w) as (s & Hrun & Hlen & Hall).
    exists s, (advance (Z.to_nat n) w). split; [exact Hrun |].
    split; [rewrite Hlen; lia | exact Hall].
  - destruct (twitch_login_run settings rnd w) as (state & Hgen & Hlen & Hall & Hrun).
    exists state. do 3 eexists. split; [exact Hgen |]. split; [exact Hrun |].
    split; [reflexivity |]. split; [exact Hlen | exact Hall].
Qed.

Lemma generate_random_string_alnum_witness :
  (exists s w',
     generate_random_string Sample.rnd 5 Sample.empty_world = (Ok s, w') /\
     Z.of_nat (String.length s) = 5 /\
     str_all alnum s = true) /\
  (exists state r w1 w',
     generate_random_string Sample.rnd 16 Sample.empty_world = (Ok state, w1) /\
     twitch_login Sample.settings Sample.rnd Sample.empty_world = (Ok r, w') /\
     set_cookie_headers r =
       [{| cookie_key := "twitch_state"; cookie_value := state;
           max_age := None; expires := None |}] /\
     String.length state = 16%nat /\
     str_all alnum state = true).
Proof.
  apply (generate_random_string_alnum Sample.settings Sample.rnd 5 Sample.empty_world).
  lia.
Defined.

(** A negative length gives the empty string. *)
Lemma generate_random_string_negative (rnd : nat -> Z) (n : Z) (w : World) :
  n < 0 -> (generate_random_string rnd n w).1 = Ok "".
Proof.
  intros Hn. unfold generate_random_string.
  replace (Z.to_nat n) with 0%nat by lia. reflexivity.
Qed.

(** ** The redirect of [twitch_login] and its query string *)

Lemma append_nil_l (b : string) : "" +:+ b = b.
Proof. reflexivity. Qed.

Lemma append_cons (x : ascii) (a b : string) :
  String x a +:+ b = String x (a +:+ b).
Proof. reflexivity. Qed.

Lemma append_assoc (a b c : string) : (a +:+ b) +:+ c = a +:+ (b +:+ c).
Proof.
  induction a as [| x a IH]; [reflexivity |].
  by rewrite !append_cons, IH.
Qed.

Lemma str_all_app (p : ascii -> bool) (a b : string) :
  str_all p (a +:+ b) = str_all p a && str_all p b.
Proof.
  induction a as [| x a IH]; [reflexivity |].
  rewrite append_cons. simpl. by rewrite IH, andb_assoc.
Qed.

Lemma str_all_impl (p q : ascii -> bool) (s : string) :
  (forall c, p c = true -> q c = true) ->
  str_all p s = true -> str_all q s = true.
Proof.
  intros Hpq. induction s as [| x s IH]; simpl; [done |].
  rewrite !andb_true_iff. intros [Hx Hs]. auto.
Qed.

Lemma percent_quoted (c : ascii) : str_all quoted_char (Urllib.percent c) = true.
Proof. destruct c as [[] [] [] [] [] [] [] []]; vm_compute; reflexivity. Qed.

Lemma str_all_cons (p : ascii -> bool) (c : ascii) (s : string) :
  str_all p (String c s) = p c && str_all p s.
Proof. reflexivity. Qed.

Lemma quote_cons (safe : string) (c : ascii) (s : string) :
  Urllib.quote safe (String c s) =
  if Urllib.mem c Urllib.ALWAYS_SAFE || Urllib.mem c safe
  then String c (Urllib.quote safe s)
  else Urllib.percent c +:+ Urllib.quote safe s.
Proof. reflexivity. Qed.

Lemma mem_str_all (p : ascii -> bool) (c : ascii) (s : string) :
  str_all p s = true -> Urllib.mem c s = true -> p c = true.
Proof.
  induction s as [| a s IH]; [discriminate 2 |].
  rewrite str_all_cons. cbn [Urllib.mem].
  intros [Ha Hs]%andb_true_iff [E | E]%orb_true_iff; [| by apply IH].
  apply Ascii.eqb_eq in E. by subst.
Qed.

Lemma quote_quoted (safe s : string) :
  str_all quoted_char safe = true ->
  str_all quoted_char (Urllib.quote safe s) = true.
Proof.
  intros Hsafe. induction s as [| c s IH]; [reflexivity |].
  rewrite quote_cons.
  destruct (Urllib.mem c Urllib.ALWAYS_SAFE) eqn:E.
  - rewrite orb_true_l, str_all_cons, IH, andb_true_r.
    unfold quoted_char. by rewrite E.
  - rewrite orb_false_l. destruct (Urllib.mem c safe) eqn:E'.
    + rewrite str_all_cons, IH, andb_true_r.
      by apply (mem_str_all quoted_char c safe).
    + by rewrite str_all_app, percent_quoted, IH.
Qed.

Lemma replace_space_quoted (s : string) :
  str_all (fun c => quoted_char c || Ascii.eqb c " ") s = true ->
  str_all quoted_char (Urllib.replace_space s) = true.
Proof.
  induction s as [| c s IH]; [reflexivity |].
  rewrite str_all_cons. cbn [Urllib.replace_space]. rewrite str_all_cons.
  intros [Hc Hs]%andb_true_iff. rewrite (IH Hs), andb_true_r.
  destruct (Ascii.eqb c " "); [reflexivity |]. by rewrite orb_false_r in Hc.
Qed.

Lemma quote_space_chars (s : string) :
  str_all (fun c => quoted_char c || Ascii.eqb c " ") (Urllib.quote " " s) = true.
Proof.
  induction s as [| c s IH]; [reflexivity |].
  rewrite quote_cons.
  destruct (Urllib.mem c Urllib.ALWAYS_SAFE) eqn:E.
  - rewrite orb_true_l, str_all_cons, IH, andb_true_r.
    unfold quoted_char. by rewrite E.
  - rewrite orb_false_l. cbn [Urllib.mem]. rewrite orb_false_r.
    destruct (Ascii.eqb_spec " " c) as [<- | Hne].
    + by rewrite str_all_cons, IH.
    + rewrite str_all_app, IH, andb_true_r.
      apply (str_all_impl quoted_char); [| apply percent_quoted].
      intros x ->. reflexivity.
Qed.

Lemma quote_plus_quoted (s : string) :
  str_all quoted_char (Urllib.quote_plus s) = true.
Proof.
  unfold Urllib.quote_plus. destruct (Urllib.mem " " s).
  - apply replace_space_quoted, quote_space_chars.
  - by apply quote_quoted.
Qed.

Lemma quoted_is_query_char (c : ascii) : quoted_char c = true -> query_char c = true.
Proof. unfold query_char. by intros ->. Qed.

Lemma query_char_location (c : ascii) : query_char c = true -> location_char c = true.
Proof.
  destruct c as [[] [] [] [] [] [] [] []]; vm_compute; intros H;
    first [reflexivity | discriminate H].
Qed.

Lemma query_char_not_hash (c : ascii) : query_char c = true -> is_not "#" c = true.
Proof.
  destruct c as [[] [] [] [] [] [] [] []]; vm_compute; intros H;
    first [reflexivity | discriminate H].
Qed.

Lemma alnum_always_safe (c : ascii) :
  alnum c = true -> Urllib.mem c Urllib.ALWAYS_SAFE = true.
Proof.
  destruct c as [[] [] [] [] [] [] [] []]; vm_compute; intros H;
    first [reflexivity | discriminate H].
Qed.

Lemma alnum_plain (c : ascii) :
  alnum c = true ->
  Ascii.eqb c " " = false /\ Ascii.eqb c "+" = false /\
  Ascii.eqb c "%" = false /\ Ascii.eqb c "&" = false /\ Ascii.eqb c "=" = false.
Proof.
  destruct c as [[] [] [] [] [] [] [] []]; vm_compute; intros H;
    first [by repeat split | discriminate H].
Qed.

(** [quote_plus] leaves an alphanumeric string as it is. *)
Lemma quote_plus_alnum (s : string) :
  str_all alnum s = true -> Urllib.quote_plus s = s.
Proof.
  intros Hs. unfold Urllib.quote_plus.
  assert (Hsp : Urllib.mem " " s = false).
  { induction s as [| c s IH]; [reflexivity |].
    rewrite str_all_cons in Hs. apply andb_true_iff in Hs as [Hc Hs].
    destruct (alnum_plain c Hc) as (Hsp & _).
    cbn [Urllib.mem]. by rewrite Hsp, (IH Hs). }
  rewrite Hsp. clear Hsp.
  induction s as [| c s IH]; [reflexivity |].
  rewrite str_all_cons in Hs. apply andb_true_iff in Hs as [Hc Hs].
  rewrite quote_cons, (alnum_always_safe c Hc), orb_true_l. by rewrite IH.
Qed.

Lemma unquote_plus_alnum (s : string) :
  str_all alnum s = true -> Urllib.unquote (Urllib.replace_plus s) = s.
Proof.
  induction s as [| c s IH]; [reflexivity |].
  rewrite str_all_cons. intros [Hc Hs]%andb_true_iff.
  destruct (alnum_plain c Hc) as (_ & Hplus & Hpct & _).
  cbn [Urllib.replace_plus]. rewrite Hplus. cbn [Urllib.unquote].
  rewrite Hpct. by rewrite (IH Hs).
Qed.

(** [RedirectResponse] leaves a url made of URL characters as it is. *)
Lemma location_fixed (r : Response) :
  str_all location_char (url r) = true -> location r = url r.
Proof.
  unfold location. generalize (url r). intros s.
  induction s as [| c s IH]; [reflexivity |].
  rewrite str_all_cons. intros [Hc Hs]%andb_true_iff.
  rewrite quote_cons. unfold location_char in Hc. rewrite Hc. by rewrite (IH Hs).
Qed.

Lemma join_cons (sep x y : string) (l : list string) :
  Urllib.join sep (x :: y :: l) = x +:+ sep +:+ Urllib.join sep (y :: l).
Proof. reflexivity. Qed.

Lemma join_snoc (sep x y : string) (l : list string) :
  Urllib.join sep ((x :: l) ++ [y]) = Urllib.join sep (x :: l) +:+ sep +:+ y.
Proof.
  revert x. induction l as [| z l IH]; intros x; [reflexivity |].
  change ((x :: z :: l) ++ [y]) with (x :: ((z :: l) ++ [y])).
  change ((z :: l) ++ [y]) with (z :: (l ++ [y])).
  rewrite !join_cons. change (z :: (l ++ [y])) with ((z :: l) ++ [y]).
  by rewrite IH, !append_assoc.
Qed.

Lemma urlencode_snoc (kv kv' : string * string) (l : list (string * string)) :
  Urllib.urlencode ((kv :: l) ++ [kv']) =
  Urllib.urlencode (kv :: l) +:+ "&" +:+
  (Urllib.quote_plus kv'.1 +:+ "=" +:+ Urllib.quote_plus kv'.2).
Proof.
  unfold Urllib.urlencode. rewrite map_app. cbn [map]. apply join_snoc.
Qed.

Lemma urlencode_chars (l : list (string * string)) :
  str_all query_char (Urllib.urlencode l) = true.
Proof.
  assert (Hq : forall s, str_all query_char (Urllib.quote_plus s) = true).
  { intros s. apply (str_all_impl quoted_char); [apply quoted_is_query_char |].
    apply quote_plus_quoted. }
  unfold Urllib.urlencode.
  induction l as [| kv l IH]; [reflexivity |].
  destruct l as [| kv' l].
  - cbn [map Urllib.join]. by rewrite !str_all_app, !Hq.
  - change (map ?f (kv :: kv' :: l)) with (f kv :: map f (kv' :: l)).
    cbn beta. change (map ?f (kv' :: l)) with (f kv' :: map f l) in *.
    rewrite join_cons, !str_all_app, !Hq, IH. reflexivity.
Qed.

Lemma split_on_nonempty (sep : ascii) (s : string) : Urllib.split_on sep s <> [].
Proof.
  destruct s as [| c s]; [discriminate |]. cbn [Urllib.split_on].
  destruct (Ascii.eqb c sep); [discriminate |].
  destruct (Urllib.split_on sep s); discriminate.
Qed.

Lemma split_on_app (sep : ascii) (a b : string) :
  Urllib.split_on sep (a +:+ String sep b) =
  Urllib.split_on sep a ++ Urllib.split_on sep b.
Proof.
  induction a as [| c a IH].
  - rewrite append_nil_l. cbn [Urllib.split_on]. by rewrite Ascii.eqb_refl.
  - rewrite append_cons. cbn [Urllib.split_on].
    destruct (Ascii.eqb c sep); rewrite IH; [reflexivity |].
    pose proof (split_on_nonempty sep a) as Hne.
    destruct (Urllib.split_on sep a); [done | reflexivity].
Qed.

Lemma split_on_none (sep : ascii) (s : string) :
  str_all (is_not sep) s = true -> Urllib.split_on sep s = [s].
Proof.
  induction s as [| c s IH]; [reflexivity |].
  rewrite str_all_cons. intros [Hc Hs]%andb_true_iff.
  cbn [Urllib.split_on]. unfold is_not in Hc. apply negb_true_iff in Hc.
  by rewrite Hc, (IH Hs).
Qed.

Lemma parse_qsl_app (a b : string) :
  Urllib.parse_qsl (a +:+ "&" +:+ b) = Urllib.parse_qsl a ++ Urllib.parse_qsl b.
Proof.
  unfold Urllib.parse_qsl.
  change ("&" +:+ b) with (String "&" b).
  by rewrite split_on_app, map_app, concat_app.
Qed.

Lemma parse_qsl_state (state : string) :
  str_all alnum state = true ->
  Urllib.parse_qsl ("state" +:+ "=" +:+ state) = [("state", state)].
Proof.
  intros Hs. unfold Urllib.parse_qsl.
  rewrite split_on_none.
  2:{ change ("state" +:+ "=" +:+ state) with ("state=" +:+ state).
      rewrite str_all_app. apply andb_true_iff. split; [reflexivity |].
      apply (str_all_impl alnum); [| exact Hs].
      intros c Hc. destruct (alnum_plain c Hc) as (_ & _ & _ & Hamp & _).
      unfold is_not. by rewrite Hamp. }
  cbn [map concat]. rewrite app_nil_r.
  change (Urllib.parse_pair ("state" +:+ "=" +:+ state))
    with [("state", Urllib.unquote (Urllib.replace_plus state))].
  by rewrite unquote_plus_alnum.
Qed.

Lemma QueryParams_get_last (key value : string) (items : list (string * string)) :
  QueryParams.get key (items ++ [(key, value)]) = Some value.
Proof.
  unfold QueryParams.get, QueryParams._dict.
  rewrite reverse_app. cbn [reverse rev_append app list_to_map].
  apply lookup_insert_eq.
Qed.

Lemma before_none (sep : ascii) (s : string) :
  str_all (is_not sep) s = true -> Urllib.before sep s = s.
Proof.
  induction s as [| c s IH]; [reflexivity |].
  rewrite str_all_cons. intros [Hc Hs]%andb_true_iff.
  cbn [Urllib.before]. unfold is_not in Hc. apply negb_true_iff in Hc.
  by rewrite Hc, (IH Hs).
Qed.

Lemma login_url_query (settings : Settings) (state : string) :
  str_all alnum state = true ->
  QueryParams.get "state"
    (Urllib.parse_qsl
       (Urllib.query_of
          (AUTHORIZE_URL +:+ "?" +:+ Urllib.urlencode (login_query settings state))))
  = Some state.
Proof.
  intros Hs. unfold Urllib.query_of.
  rewrite before_none.
  2:{ rewrite !str_all_app. apply andb_true_iff. split; [reflexivity |].
      apply andb_true_iff. split; [reflexivity |].
      apply (str_all_impl query_char); [apply query_char_not_hash |].
      apply urlencode_chars. }
  change (Urllib.after "?" (AUTHORIZE_URL +:+ "?" +:+ ?q)) with q.
  unfold login_query.
  change [("response_type", "code"); ("client_id", TWITCH_CLIENT_ID settings);
          ("redirect_uri", REDIRECT_URI settings); ("state", state)]
    with ((("response_type", "code") ::
           [("client_id", TWITCH_CLIENT_ID settings);
            ("redirect_uri", REDIRECT_URI settings)]) ++ [("state", state)]).
  rewrite urlencode_snoc. cbn [fst snd].
  change (Urllib.quote_plus "state") with "state".
  rewrite (quote_plus_alnum state Hs), parse_qsl_app, (parse_qsl_state state Hs).
  apply QueryParams_get_last.
Qed.

(** C5, as the specification states it, fails: the redirect that
    [twitch_login] answers with is not a 302. *)
Lemma login_redirect_is_not_302 :
  ~ exists r w',
      twitch_login Sample.settings Sample.rnd Sample.empty_world = (Ok r, w') /\
      status_code r = 302.
Proof.
  intros (r & w' & H & Hs). vm_compute in H.
  injection H as <- _. discriminate Hs.
Qed.

(** C5, amended. Every login is answered with a redirect to the Twitch
    authorization URL whose query string carries, under [state], exactly
    the value that the same response sets as the [twitch_state] cookie.
    The redirect has the status [RedirectResponse] gives by default,
    307; its [location] header is the url as built. *)
Theorem login_state_matches_cookie (settings : Settings) (rnd : nat -> Z) (w : World) :
  exists state r w',
    twitch_login settings rnd w = (Ok r, w') /\
    status_code r = 307 /\
    url r = AUTHORIZE_URL +:+ "?" +:+ Urllib.urlencode (login_query settings state) /\
    location r = url r /\
    QueryParams.get "state" (Urllib.parse_qsl (Urllib.query_of (location r)))
      = Some state /\
    set_cookie_headers r =
      [{| cookie_key := "twitch_state"; cookie_value := state;
          max_age := None; expires := None |}].
Proof.
  destruct (twitch_login_run settings rnd w) as (state & _ & _ & Hall & Hrun).
  exists state. do 2 eexists. split; [exact Hrun |].
  split; [reflexivity |]. split; [reflexivity |].
  assert (Hloc : forall r, url r = AUTHORIZE_URL +:+ "?" +:+
                                   Urllib.urlencode (login_query settings state) ->
                           location r = url r).
  { intros r Hr. apply location_fixed. rewrite Hr, !str_all_app.
    apply andb_true_iff. split; [reflexivity |].
    apply andb_true_iff. split; [reflexivity |].
    apply (str_all_impl query_char); [apply query_char_location |].
    apply urlencode_chars. }
  split; [by apply Hloc |]. split; [| reflexivity].
  rewrite Hloc by reflexivity. apply (login_url_query settings state Hall).
Qed.


(** ** Refresh *)

Arguments refresh_form : simpl never.

Lemma refresh_form_fields (settings : Settings) (token : string) :
  refresh_form settings token !! "grant_type" = Some "refresh_token" /\
  refresh_form settings token !! "refresh_token" = Some token.
Proof.
  unfold refresh_form. split.
  - rewrite !lookup_insert_ne by done. apply lookup_insert_eq.
  - rewrite !lookup_insert_ne by done. apply lookup_insert_eq.
Qed.

(** The run of the refresh route: the call of [fetch_twitch_token], then
    the check of the value against the declared return type. *)
Lemma route_refresh_run (settings : Settings) (twitch : Provider)
    (token : string) (w : World) :
  route_refresh settings twitch token w =
  let data := refresh_form settings token in
  let answer := token_endpoint twitch (log w) data in
  let first := EvPost TOKEN_URL data answer in
  let followed := follow twitch MAX_REDIRECTS POST answer (log w ++ [first]) in
  (match followed.1 with
   | Raise x => Raise x
   | Ok a =>
       if status a =? 200
       then match json a with
            | Some (PDict d) => Ok (PDict d)
            | Some _ => Raise ResponseValidationError
            | None => Raise JSONDecodeError
            end
       else Raise (HTTPException (status a) "Failed to fetch tokens")
   end,
   set_log (log w ++ first :: followed.2) w).
Proof.
  unfold route_refresh, bind, refresh_token. fold (refresh_form settings token).
  rewrite fetch_twitch_token_run. cbv zeta.
  destruct (follow twitch MAX_REDIRECTS POST _ _) as [[a | x] hops]; cbn [fst snd];
    [| reflexivity].
  destruct (status a =? 200); [| reflexivity].
  destruct (json a) as [[] |]; reflexivity.
Qed.

Lemma route_refresh_table (settings : Settings) (twitch : Provider)
    (token : string) (w : World) :
  table (route_refresh settings twitch token w).2 = table w.
Proof. by rewrite route_refresh_run. Qed.



(** ** The invariant of the users table *)

(** Whatever the database does, a callback leaves the table as it was or
    with one more row, whose [twitch_id] no earlier row has. *)
Lemma route_callback_on_table (db : Database) (settings : Settings) (twitch : Provider)
    (request : Request) (w : World) :
  table (route_callback_on settings twitch db request w).2 = table w \/
  exists u,
    table (route_callback_on settings twitch db request w).2 = table w ++ [u] /\
    forall x, x ∈ table w -> twitch_id x <> twitch_id u.
Proof.
  callback_paths db settings twitch request w; try (by left);
    right; eexists; (split; [reflexivity |]); cbn [new_row twitch_id]; done.
Qed.

Lemma route_callback_table (settings : Settings) (twitch : Provider)
    (request : Request) (w : World) :
  table (route_callback settings twitch request w).2 = table w \/
  exists u,
    table (route_callback settings twitch request w).2 = table w ++ [u] /\
    forall x, x ∈ table w -> twitch_id x <> twitch_id u.
Proof. apply route_callback_on_table. Qed.

Lemma unique_twitch_ids_snoc (t : list User) (u : User) :
  unique_twitch_ids t ->
  (forall x, x ∈ t -> twitch_id x <> twitch_id u) ->
  unique_twitch_ids (t ++ [u]).
Proof.
  unfold unique_twitch_ids. intros Ht Hu. rewrite map_app.
  apply NoDup_app. split; [exact Ht |]. split; [| apply NoDup_singleton].
  intros y Hy Hy'. apply list_elem_of_fmap in Hy as (x & -> & Hx).
  apply elem_of_cons in Hy' as [Hy' | Hy']; [by apply (Hu x) | by apply elem_of_nil in Hy'].
Qed.

Lemma run_operation_unique (settings : Settings) (twitch : Provider) (rnd : nat -> Z)
    (o : operation) (w : World) :
  unique_twitch_ids (table w) ->
  unique_twitch_ids (table (run_operation settings twitch rnd o w)).
Proof.
  intros Hw. destruct o as [| request | token]; cbn [run_operation].
  - unfold route_login.
    destruct (twitch_login_run settings rnd w) as (state & _ & _ & _ & ->).
    exact Hw.
  - destruct (route_callback_table settings twitch request w)
      as [-> | (u & -> & Hu)]; [exact Hw |].
    by apply unique_twitch_ids_snoc.
  - by rewrite route_refresh_table.
Qed.




(** * Further properties of the router *)

(** ** The paths of [callback] *)

(** A request that passes validation has its code posted first. *)
Lemma route_callback_on_first (db : Database) (settings : Settings)
    (twitch : Provider) (request : Request) (code state : string) (w : World) :
  passes_validation request code state ->
  exists rest,
    events_since w (route_callback_on settings twitch db request w).2
    = token_call settings twitch code w :: rest.
Proof.
  intros Hv.
  callback_paths db settings twitch request w; same_request Hv;
    unfold twitch_chain, token_chain; eexists; reflexivity.
Qed.

(** Any other request leaves no trace. *)
Lemma route_callback_on_silent (db : Database) (settings : Settings)
    (twitch : Provider) (request : Request) (w : World) :
  ~ (exists code state, passes_validation request code state) ->
  events_since w (route_callback_on settings twitch db request w).2 = [].
Proof.
  intros Hnv.
  callback_paths db settings twitch request w; [reflexivity | exfalso; eauto ..].
Qed.

(** X1. A callback contacts Twitch exactly when the request passes
    validation: then the first thing it does is the POST to the token
    endpoint, with the code of the request; otherwise its trace stays
    empty.  The database has no say in this. *)
Theorem callback_contacts_twitch_iff_valid (db : Database) (settings : Settings)
    (twitch : Provider) (request : Request) (w : World) :
  ((exists code state, passes_validation request code state) <->
   (exists code rest,
      events_since w (route_callback_on settings twitch db request w).2
      = token_call settings twitch code w :: rest)) /\
  (forall code state,
     passes_validation request code state ->
     exists rest,
       events_since w (route_callback_on settings twitch db request w).2
       = token_call settings twitch code w :: rest) /\
  (~ (exists code state, passes_validation request code state) ->
   events_since w (route_callback_on settings twitch db request w).2 = []).
Proof.
  split; [| split].
  - split.
    + intros (code & state & Hv). exists code.
      by eapply route_callback_on_first.
    + intros (code & rest & Hev).
      destruct (callback_guard db settings twitch request w)
        as [[Hnv _] | (code' & state' & Hv & _)]; [| eauto].
      rewrite (route_callback_on_silent db settings twitch request w Hnv) in Hev.
      discriminate Hev.
  - intros code state. apply route_callback_on_first.
  - apply route_callback_on_silent.
Qed.



(** X2. An empty [code] or an empty [state] is refused like a missing
    one: the callback fails with status 400 before anything else
    happens. *)
Theorem callback_rejects_empty_values (settings : Settings) (twitch : Provider)
    (request : Request) (w : World) :
  QueryParams.get "code" (query_params request) = Some "" \/
  QueryParams.get "state" (query_params request) = Some "" ->
  exists detail,
    (route_callback settings twitch request w).1 = Raise (HTTPException 400 detail) /\
    table (route_callback settings twitch request w).2 = table w /\
    events_since w (route_callback settings twitch request w).2 = [].
Proof.
  intros Hempty.
  reliable_paths settings twitch request w;
    [ eexists; split; [reflexivity |]; split; reflexivity
    | exfalso;
      match goal with
      | Hv : passes_validation _ _ _ |- _ =>
          destruct Hv as (Hc & Hc' & Hs & Hs' & _)
      end;
      destruct Hempty as [E | E]; congruence .. ].
Qed.

Lemma callback_rejects_empty_values_witness :
  exists detail,
    (route_callback Sample.settings Sample.twitch
       {| query_params := [("code", ""); ("state", "xyz")];
          cookies := {[ "twitch_state" := "xyz" ]} |}
       Sample.world_with_bob).1 = Raise (HTTPException 400 detail) /\
    table (route_callback Sample.settings Sample.twitch
             {| query_params := [("code", ""); ("state", "xyz")];
                cookies := {[ "twitch_state" := "xyz" ]} |}
             Sample.world_with_bob).2 = table Sample.world_with_bob /\
    events_since Sample.world_with_bob
      (route_callback Sample.settings Sample.twitch
         {| query_params := [("code", ""); ("state", "xyz")];
            cookies := {[ "twitch_state" := "xyz" ]} |}
         Sample.world_with_bob).2 = [].
Proof.
  apply (callback_rejects_empty_values Sample.settings Sample.twitch
           {| query_params := [("code", ""); ("state", "xyz")];
              cookies := {[ "twitch_state" := "xyz" ]} |}
           Sample.world_with_bob).
  left. vm_compute. reflexivity.
Defined.




(** X5. The body of a 200 answer of the token endpoint is used as a dict
    without a check: when it is any other JSON value (a list, a string,
    a number, [null]), [api_response.get] raises [AttributeError], which
    is no [HTTPException]; the user-info endpoint is never contacted and
    the table is unchanged. *)
Theorem callback_token_body_not_object (settings : Settings) (twitch : Provider)
    (request : Request) (code state : string) (api : pyval) (w : World) :
  passes_validation request code state ->
  status (token_answer settings twitch code w) = 200 ->
  json (token_answer settings twitch code w) = Some api ->
  (forall tok, api <> PDict tok) ->
  (route_callback settings twitch request w).1 = Raise AttributeError /\
  events_since w (route_callback settings twitch request w).2
    = [token_call settings twitch code w] /\
  table (route_callback settings twitch request w).2 = table w.
Proof.
  intros Hv Hst Hj Hno.
  assert (Hnr : is_redirect (status (token_answer settings twitch code w)) = false)
    by (by rewrite Hst).
  destruct (token_direct settings twitch code w Hnr) as [Htr Hch].
  reliable_paths settings twitch request w; same_request Hv; same_call; simplify_eq;
    try congruence;
    try (exfalso;
         match goal with
         | Hx : token_answer _ _ _ _ = _ |- _ =>
             rewrite Hx in Hj; cbn [json] in Hj; simplify_eq; by eapply Hno
         end).
  by rewrite Hch.
Qed.

Lemma callback_token_body_not_object_witness :
  (route_callback Sample.settings Sample.twitch_answering_list
     Sample.good_request Sample.world_with_bob).1 = Raise AttributeError /\
  events_since Sample.world_with_bob
    (route_callback Sample.settings Sample.twitch_answering_list
       Sample.good_request Sample.world_with_bob).2
    = [token_call Sample.settings Sample.twitch_answering_list
         "abc" Sample.world_with_bob] /\
  table (route_callback Sample.settings Sample.twitch_answering_list
           Sample.good_request Sample.world_with_bob).2 = table Sample.world_with_bob.
Proof.
  apply (callback_token_body_not_object Sample.settings Sample.twitch_answering_list
           Sample.good_request "abc" "xyz" (PList []) Sample.world_with_bob).
  - repeat split; try discriminate; vm_compute; reflexivity.
  - reflexivity.
  - reflexivity.
  - discriminate.
Defined.

(** ** What [fetch_user_info] makes of a 200 body *)

(** X7. Of a body that is a JSON object, [fetch_user_info] returns [None]
    exactly when the key [data] is missing or its value is falsy (an
    empty list, [null], ...); in every other case it either returns a
    profile or raises. *)
Theorem user_data_of_object_none (d : list (string * pyval)) :
  user_data_of (PDict d) = Ok PNone <->
  Py.lookup "data" d = None \/
  exists items, Py.lookup "data" d = Some items /\ Py.truthy items = false.
Proof.
  unfold user_data_of, rbind.
  destruct d as [| kv d]; [split; [by left | done] |].
  cbn [Py.truthy Py.contains Py.getitem].
  destruct (Py.lookup "data" (kv :: d)) as [items |] eqn:Hl.
  2:{ rewrite bool_decide_eq_false_2 by (intros [? ?]; discriminate).
      split; [by left | done]. }
  rewrite bool_decide_eq_true_2 by eauto.
  destruct (Py.truthy items) eqn:Ht.
  - split.
    + repeat (case_match; try discriminate).
    + intros [? | (items' & [= <-] & Hf)]; congruence.
  - split; [| done]. intros _. right. eauto.
Qed.

(** X8. From a well-formed body [fetch_user_info] takes the first entry
    of [data] only, and of it the four fields [id], [login],
    [display_name] and [profile_image_url], which it returns under the
    keys [id], [username], [display_name] and [avatar_url]; further
    entries and further fields are ignored. *)
Theorem user_data_of_first_entry (d user : list (string * pyval))
    (others : list pyval) (uid login display_name image : pyval) :
  Py.lookup "data" d = Some (PList (PDict user :: others)) ->
  Py.lookup "id" user = Some uid ->
  Py.lookup "login" user = Some login ->
  Py.lookup "display_name" user = Some display_name ->
  Py.lookup "profile_image_url" user = Some image ->
  user_data_of (PDict d) = Ok (user_data uid login display_name image).
Proof.
  intros Hd Hi Hl Hn Hp. unfold user_data_of, rbind.
  destruct d as [| kv d]; [discriminate |].
  cbn [Py.truthy Py.contains Py.getitem Py.getitem0].
  rewrite Hd, bool_decide_eq_true_2 by eauto.
  cbn [Py.truthy Py.getitem0 Py.getitem]. by rewrite Hi, Hl, Hn, Hp.
Qed.

Lemma user_data_of_first_entry_witness :
  user_data_of
    (PDict [("data", PList [PDict [("id", PStr "42"); ("login", PStr "bob");
                                   ("type", PStr "");
                                   ("display_name", PStr "Bob");
                                   ("profile_image_url", PStr "http://img/bob.png")];
                            PDict [("id", PStr "43")]]);
            ("pagination", PDict [])])
  = Ok (user_data (PStr "42") (PStr "bob") (PStr "Bob") (PStr "http://img/bob.png")).
Proof.
  apply (user_data_of_first_entry
           [("data", PList [PDict [("id", PStr "42"); ("login", PStr "bob");
                                   ("type", PStr "");
                                   ("display_name", PStr "Bob");
                                   ("profile_image_url", PStr "http://img/bob.png")];
                            PDict [("id", PStr "43")]]);
            ("pagination", PDict [])]
           [("id", PStr "42"); ("login", PStr "bob"); ("type", PStr "");
            ("display_name", PStr "Bob");
            ("profile_image_url", PStr "http://img/bob.png")]
           [PDict [("id", PStr "43")]]); reflexivity.
Defined.

(** X10. When the first entry of [data] is an object that lacks one of
    the four fields, [fetch_user_info] does not return [None]: the
    subscript raises [KeyError]. *)
Theorem user_data_of_missing_field (d user : list (string * pyval))
    (others : list pyval) :
  Py.lookup "data" d = Some (PList (PDict user :: others)) ->
  Py.lookup "id" user = None \/ Py.lookup "login" user = None \/
  Py.lookup "display_name" user = None \/
  Py.lookup "profile_image_url" user = None ->
  user_data_of (PDict d) = Raise KeyError.
Proof.
  intros Hd Hmiss. unfold user_data_of, rbind.
  destruct d as [| kv d]; [discriminate |].
  cbn [Py.truthy Py.contains Py.getitem Py.getitem0].
  rewrite Hd, bool_decide_eq_true_2 by eauto.
  cbn [Py.truthy Py.getitem0 Py.getitem].
  destruct (Py.lookup "id" user); [| reflexivity].
  destruct (Py.lookup "login" user); [| reflexivity].
  destruct (Py.lookup "display_name" user); [| reflexivity].
  destruct (Py.lookup "profile_image_url" user); [| reflexivity].
  exfalso. destruct Hmiss as [? | [? | [? | ?]]]; discriminate.
Qed.

Lemma user_data_of_missing_field_witness :
  user_data_of
    (PDict [("data", PList [PDict [("id", PStr "42"); ("login", PStr "bob")]])])
  = Raise KeyError.
Proof.
  apply (user_data_of_missing_field
           [("data", PList [PDict [("id", PStr "42"); ("login", PStr "bob")]])]
           [("id", PStr "42"); ("login", PStr "bob")] []).
  - reflexivity.
  - right. right. left. reflexivity.
Defined.

(** X11. On a malformed body [fetch_user_info] raises [TypeError] or
    [KeyError], never anything else: the subscript [data["data"][0]] is
    only reached for a non-empty value, so it cannot raise [IndexError]. *)
Theorem user_data_of_errors (data : pyval) (e : exn) :
  user_data_of data = Raise e -> e = TypeError \/ e = KeyError.
Proof.
  unfold user_data_of, rbind, Py.contains, Py.getitem, Py.getitem0, Py.truthy.
  repeat (case_match; simplify_eq; try discriminate);
    intros [= <-]; auto.
Qed.

Lemma user_data_of_errors_witness : TypeError = TypeError \/ TypeError = KeyError.
Proof.
  apply (user_data_of_errors (PInt 7) TypeError). reflexivity.
Defined.


(** ** More on the paths of [callback] *)

(** X6. When Twitch answers both calls with 200 but the user-info body
    holds no profile, the callback redirects as on success and does not
    touch the database at all, not even to read: its trace is the two
    calls to Twitch and nothing else. *)
Theorem callback_without_profile (settings : Settings) (twitch : Provider)
    (request : Request) (code state : string)
    (tok : list (string * pyval)) (body : pyval) (w : World) :
  passes_validation request code state ->
  token_answer settings twitch code w = {| status := 200; json := Some (PDict tok) |} ->
  users_answer settings twitch code (default PNone (Py.lookup "access_token" tok)) w
    = {| status := 200; json := Some body |} ->
  user_data_of body = Ok PNone ->
  (route_callback settings twitch request w).1 = Ok (frontend_redirect settings) /\
  events_since w (route_callback settings twitch request w).2
    = [token_call settings twitch code w;
       users_call settings twitch code
         (default PNone (Py.lookup "access_token" tok)) w] /\
  table (route_callback settings twitch request w).2 = table w.
Proof.
  intros Hv Ht Hu Hd.
  rewrite (route_callback_success settings twitch request code state tok body _ w
             Hv Ht Hu Hd).
  cbv zeta. rewrite store_user_none. cbn [fst snd].
  split; [reflexivity |]. split; [| reflexivity]. by apply events_since_app.
Qed.

Lemma callback_without_profile_witness :
  (route_callback Sample.settings Sample.twitch_without_profile
     Sample.good_request Sample.world_with_bob).1
    = Ok (frontend_redirect Sample.settings) /\
  events_since Sample.world_with_bob
    (route_callback Sample.settings Sample.twitch_without_profile
       Sample.good_request Sample.world_with_bob).2
    = [token_call Sample.settings Sample.twitch_without_profile
         "abc" Sample.world_with_bob;
       users_call Sample.settings Sample.twitch_without_profile "abc"
         (default PNone (Py.lookup "access_token"
                           [("access_token", PStr "AT"); ("refresh_token", PStr "RT");
                            ("expires_in", PInt 3600)]))
         Sample.world_with_bob] /\
  table (route_callback Sample.settings Sample.twitch_without_profile
           Sample.good_request Sample.world_with_bob).2 = table Sample.world_with_bob.
Proof.
  apply (callback_without_profile Sample.settings Sample.twitch_without_profile
           Sample.good_request "abc" "xyz"
           [("access_token", PStr "AT"); ("refresh_token", PStr "RT");
            ("expires_in", PInt 3600)]
           (PDict [("data", PList [])]) Sample.world_with_bob).
  - repeat split; try discriminate; vm_compute; reflexivity.
  - reflexivity.
  - reflexivity.
  - reflexivity.
Defined.

(** The lookup path of [callback]. *)
Lemma route_callback_known_profile (settings : Settings) (twitch : Provider)
    (request : Request) (code state : string)
    (tok : list (string * pyval)) (body tid login display_name image : pyval)
    (u : User) (w : World) :
  passes_validation request code state ->
  token_answer settings twitch code w = {| status := 200; json := Some (PDict tok) |} ->
  users_answer settings twitch code (default PNone (Py.lookup "access_token" tok)) w
    = {| status := 200; json := Some body |} ->
  user_data_of body = Ok (user_data tid login display_name image) ->
  u ∈ table w -> twitch_id u = tid ->
  table (route_callback settings twitch request w).2 = table w.
Proof.
  intros Hv Ht Hu Hd Hin Hid.
  rewrite (route_callback_success settings twitch request code state tok body _ w
             Hv Ht Hu Hd).
  cbv zeta. rewrite store_user_profile.
  change (table (set_log ?l (new_session w))) with (table w).
  change (pending (set_log ?l (new_session w))) with (@nil User).
  rewrite app_nil_r.
  destruct (find_matches_some tid (table w) u Hin Hid) as [u' ->]. reflexivity.
Qed.

(** X12. Logging in twice stores the user once, with the tokens of the
    first login.  After a callback that inserted the row of a new
    profile, a second successful callback whose profile carries the same
    [twitch_id], whatever its other fields and whatever tokens Twitch
    issued this time, leaves the table as the first one left it. *)
Theorem callback_twice_keeps_first_row (settings : Settings) (twitch : Provider)
    (request request' : Request) (code state code' state' : string)
    (tok tok' : list (string * pyval))
    (body body' tid login display_name image login' display_name' image' : pyval)
    (w : World) :
  passes_validation request code state ->
  token_answer settings twitch code w = {| status := 200; json := Some (PDict tok) |} ->
  users_answer settings twitch code (default PNone (Py.lookup "access_token" tok)) w
    = {| status := 200; json := Some body |} ->
  user_data_of body = Ok (user_data tid login display_name image) ->
  (forall u, u ∈ table w -> twitch_id u <> tid) ->
  let w1 := (route_callback settings twitch request w).2 in
  passes_validation request' code' state' ->
  token_answer settings twitch code' w1
    = {| status := 200; json := Some (PDict tok') |} ->
  users_answer settings twitch code' (default PNone (Py.lookup "access_token" tok')) w1
    = {| status := 200; json := Some body' |} ->
  user_data_of body' = Ok (user_data tid login' display_name' image') ->
  table (route_callback settings twitch request' w1).2 =
  table w ++
    [new_row (Session.max_id (table w) + 1) tid login display_name image
       (default PNone (Py.lookup "access_token" tok))
       (default PNone (Py.lookup "refresh_token" tok))].
Proof.
  intros Hv Ht Hu Hd Hnew w1 Hv' Ht' Hu' Hd'.
  destruct (route_callback_new_profile settings twitch request code state tok body
              tid login display_name image w Hv Ht Hu Hd Hnew)
    as (r & w' & Hrun & Htable).
  assert (Hw1 : table w1 = table w ++
            [new_row (Session.max_id (table w) + 1) tid login display_name image
               (default PNone (Py.lookup "access_token" tok))
               (default PNone (Py.lookup "refresh_token" tok))]).
  { unfold w1. rewrite Hrun. exact Htable. }
  rewrite <- Hw1.
  eapply (route_callback_known_profile settings twitch request' code' state' tok' body'
            tid login' display_name' image' _ w1 Hv' Ht' Hu' Hd').
  - rewrite Hw1. apply elem_of_app. right. apply list_elem_of_singleton. reflexivity.
  - reflexivity.
Qed.

Lemma callback_twice_keeps_first_row_witness :
  table (route_callback Sample.settings Relogin.twitch Sample.good_request
           (route_callback Sample.settings Relogin.twitch Sample.good_request
              Sample.empty_world).2).2 =
  table Sample.empty_world ++
    [new_row (Session.max_id (table Sample.empty_world) + 1)
       (PStr "42") (PStr "bob") (PStr "Bob") (PStr "http://img/bob.png")
       (default PNone (Py.lookup "access_token" Relogin.first_tokens))
       (default PNone (Py.lookup "refresh_token" Relogin.first_tokens))].
Proof.
  apply (callback_twice_keeps_first_row Sample.settings Relogin.twitch
           Sample.good_request Sample.good_request "abc" "xyz" "abc" "xyz"
           Relogin.first_tokens Relogin.later_tokens
           (Relogin.profile "Bob") (Relogin.profile "Robert")
           (PStr "42") (PStr "bob") (PStr "Bob") (PStr "http://img/bob.png")
           (PStr "bob") (PStr "Robert") (PStr "http://img/bob.png")
           Sample.empty_world).
  - repeat split; try discriminate; vm_compute; reflexivity.
  - reflexivity.
  - reflexivity.
  - reflexivity.
  - intros u Hu. simpl in Hu. by apply elem_of_nil in Hu.
  - repeat split; try discriminate; vm_compute; reflexivity.
  - vm_compute. reflexivity.
  - vm_compute. reflexivity.
  - reflexivity.
Defined.


(** X13. [callback] leaves nothing for the close of the session to
    discard: started on a session with nothing pending, it returns,
    normally or by an exception, with nothing pending, whatever the
    database does.  What it added is committed, or expunged by the
    rollback of a commit that failed. *)
Theorem callback_leaves_nothing_pending (db : Database) (settings : Settings)
    (twitch : Provider) (request : Request) (w : World) :
  pending w = [] ->
  pending (callback settings twitch db request w).2 = [].
Proof.
  intros Hp.
  destruct (callback_guard db settings twitch request w)
    as [[_ [detail ->]] | (code & state & _ & ->)]; [exact Hp |].
  rewrite exchange_on_run. cbv zeta.
  destruct (token_result settings twitch code w); [| exact Hp].
  destruct (status _ =? 200); [| exact Hp].
  destruct (json _) as [api |]; [| exact Hp].
  destruct (Py.get "access_token" api) as [access | e]; [| exact Hp].
  destruct (Py.get "refresh_token" api) as [refresh | e]; [| exact Hp].
  destruct (users_result settings twitch code access w); [| exact Hp].
  destruct (status _ =? 200); [| exact Hp].
  destruct (json _) as [body |]; [| exact Hp].
  destruct (user_data_of body) as [user_info | e] eqn:Hd; [| exact Hp].
  destruct (user_data_of_shape body user_info Hd)
    as [-> | (tid & login & display_name & image & ->)].
  { rewrite store_user_on_none. exact Hp. }
  rewrite store_user_on_profile. cbv zeta.
  destruct (exec_raises db _); [exact Hp |].
  destruct (find _ _); [exact Hp |].
  destruct (commit_raises db _); [reflexivity |].
  destruct (refresh_raises db _); reflexivity.
Qed.

Lemma callback_leaves_nothing_pending_witness :
  pending (callback Sample.settings Sample.twitch Sample.database_refusing_commit
             Sample.good_request Sample.empty_world).2 = [].
Proof.
  apply (callback_leaves_nothing_pending Sample.database_refusing_commit
           Sample.settings Sample.twitch Sample.good_request Sample.empty_world).
  reflexivity.
Defined.

(** ** More on [twitch_login] and [generate_random_string] *)

(** X14. A login never fails and has no side effect but the random
    numbers it consumes: it answers normally, the users table, the
    session and the trace are untouched (no call to Twitch, no database
    access), and exactly 16 numbers were drawn from the generator. *)
Theorem login_has_no_side_effect (settings : Settings) (rnd : nat -> Z) (w : World) :
  exists r w',
    twitch_login settings rnd w = (Ok r, w') /\
    table w' = table w /\ pending w' = pending w /\ log w' = log w /\
    draws w' = (draws w + 16)%nat.
Proof.
  destruct (twitch_login_run settings rnd w) as (state & _ & _ & _ & Hrun).
  do 2 eexists. split; [exact Hrun |]. repeat split.
Qed.

(** X15. A length that is zero or negative gives the empty string, and
    no random number is drawn for it. *)
Theorem generate_random_string_nonpositive (rnd : nat -> Z) (n : Z) (w : World) :
  n <= 0 -> generate_random_string rnd n w = (Ok "", w).
Proof.
  intros Hn. unfold generate_random_string.
  replace (Z.to_nat n) with 0%nat by lia. reflexivity.
Qed.

Lemma generate_random_string_nonpositive_witness :
  generate_random_string Sample.rnd (-3) Sample.world_with_bob
  = (Ok "", Sample.world_with_bob).
Proof.
  apply (generate_random_string_nonpositive Sample.rnd (-3) Sample.world_with_bob).
  lia.
Defined.

Lemma login_location (settings : Settings) (state : string) (r : Response) :
  url r = AUTHORIZE_URL +:+ "?" +:+ Urllib.urlencode (login_query settings state) ->
  location r = url r.
Proof.
  intros Hr. apply location_fixed. rewrite Hr, !str_all_app.
  apply andb_true_iff. split; [reflexivity |].
  apply andb_true_iff. split; [reflexivity |].
  apply (str_all_impl query_char); [apply query_char_location |].
  apply urlencode_chars.
Qed.

Lemma length_16_nonempty (s : string) :
  String.length s = 16%nat -> s <> "".
Proof. intros H ->. discriminate. Qed.

(** X16. Login and callback fit together.  When the browser comes back
    with the cookie a login set, the [state] that the redirect URL of
    that login carried, and any non-empty [code], the request passes
    the validation of [callback]. *)
Theorem login_state_passes_callback (settings : Settings) (rnd : nat -> Z)
    (w w' : World) (r : Response) (c : Cookie) (code st : string) :
  twitch_login settings rnd w = (Ok r, w') ->
  QueryParams.get "state" (Urllib.parse_qsl (Urllib.query_of (location r))) = Some st ->
  set_cookie_headers r = [c] ->
  code <> "" ->
  passes_validation
    {| query_params := [("code", code); ("state", st)];
       cookies := {[ cookie_key c := cookie_value c ]} |}
    code st.
Proof.
  intros Hlogin Hst Hc Hcode.
  destruct (twitch_login_run settings rnd w) as (state & _ & Hlen & Hall & Hrun).
  rewrite Hrun in Hlogin. injection Hlogin as <- <-.
  rewrite login_location with (settings := settings) (state := state) in Hst
    by reflexivity.
  cbn [url set_cookie RedirectResponse] in Hst.
  change ("https://id.twitch.tv/oauth2/authorize?" +:+ ?q)
    with (AUTHORIZE_URL +:+ "?" +:+ q) in Hst.
  fold (login_query settings state) in Hst.
  rewrite (login_url_query settings state Hall) in Hst. injection Hst as <-.
  cbn [set_cookie_headers set_cookie RedirectResponse app] in Hc.
  injection Hc as <-. cbn [cookie_key cookie_value].
  assert (Hne : state <> "") by (by apply length_16_nonempty).
  unfold passes_validation, QueryParams.get, QueryParams._dict.
  cbn [query_params cookies]. unfold reverse. cbn [rev_append].
  rewrite !list_to_map_cons.
  split; [by rewrite lookup_insert_ne, lookup_insert_eq by done |].
  split; [exact Hcode |].
  split; [by rewrite lookup_insert_eq |].
  split; [exact Hne |]. apply lookup_singleton_eq.
Qed.

Lemma login_state_passes_callback_witness :
  passes_validation
    {| query_params := [("code", "abc"); ("state", "aiqzHQY7fowFNW4d")];
       cookies := {[ "twitch_state" := "aiqzHQY7fowFNW4d" ]} |}
    "abc" "aiqzHQY7fowFNW4d".
Proof.
  apply (login_state_passes_callback Sample.settings Sample.rnd
           Sample.empty_world (advance 16 Sample.empty_world)
           (set_cookie "twitch_state" "aiqzHQY7fowFNW4d"
              (RedirectResponse
                 ("https://id.twitch.tv/oauth2/authorize?" +:+
                  Urllib.urlencode (login_query Sample.settings "aiqzHQY7fowFNW4d"))))
           {| cookie_key := "twitch_state"; cookie_value := "aiqzHQY7fowFNW4d";
              max_age := None; expires := None |}
           "abc" "aiqzHQY7fowFNW4d").
  - vm_compute. reflexivity.
  - vm_compute. reflexivity.
  - reflexivity.
  - discriminate.
Defined.

(** ** The query string of the login redirect reads back *)

Lemma always_safe_plain (c : ascii) :
  Urllib.mem c Urllib.ALWAYS_SAFE = true ->
  Ascii.eqb c " " = false /\ Ascii.eqb c "+" = false /\ Ascii.eqb c "%" = false.
Proof.
  destruct c as [[] [] [] [] [] [] [] []]; vm_compute; intros H;
    first [by repeat split | discriminate H].
Qed.

Lemma replace_space_app (a b : string) :
  Urllib.replace_space (a +:+ b) = Urllib.replace_space a +:+ Urllib.replace_space b.
Proof.
  induction a as [| c a IH]; [reflexivity |].
  rewrite append_cons. cbn [Urllib.replace_space]. by rewrite IH, append_cons.
Qed.

Lemma replace_space_percent (c : ascii) :
  Urllib.replace_space (Urllib.percent c) = Urllib.percent c.
Proof. destruct c as [[] [] [] [] [] [] [] []]; reflexivity. Qed.

(** [quote_plus] works byte by byte. *)
Lemma quote_plus_bytes (s : string) : Urllib.quote_plus s = quote_plus_each s.
Proof.
  unfold Urllib.quote_plus. destruct (Urllib.mem " " s) eqn:Hsp.
  - clear Hsp. induction s as [| c s IH]; [reflexivity |].
    rewrite quote_cons. cbn [quote_plus_each]. unfold quote_plus_byte.
    destruct (Urllib.mem c Urllib.ALWAYS_SAFE) eqn:E.
    + destruct (always_safe_plain c E) as (Hs & _).
      rewrite orb_true_l. cbn [Urllib.replace_space]. by rewrite Hs, IH.
    + rewrite orb_false_l. cbn [Urllib.mem]. rewrite orb_false_r.
      destruct (Ascii.eqb_spec " " c) as [<- | Hne].
      * cbn [Urllib.replace_space]. by rewrite IH.
      * rewrite replace_space_app, replace_space_percent, IH.
        destruct (Ascii.eqb_spec c " ") as [-> | _]; [done | reflexivity].
  - induction s as [| c s IH]; [reflexivity |].
    cbn [Urllib.mem] in Hsp. apply orb_false_iff in Hsp as [Hc Hsp].
    rewrite quote_cons. cbn [quote_plus_each Urllib.mem]. unfold quote_plus_byte.
    rewrite orb_false_r, Hc, (IH Hsp).
    by destruct (Urllib.mem c Urllib.ALWAYS_SAFE).
Qed.

Lemma unquote_byte (c : ascii) (rest : string) :
  Urllib.unquote (Urllib.replace_plus (quote_plus_byte c +:+ rest))
  = String c (Urllib.unquote (Urllib.replace_plus rest)).
Proof. destruct c as [[] [] [] [] [] [] [] []]; reflexivity. Qed.

(** Decoding undoes [quote_plus], whatever bytes the string holds. *)
Lemma unquote_quote_plus (s : string) :
  Urllib.unquote (Urllib.replace_plus (Urllib.quote_plus s)) = s.
Proof.
  rewrite quote_plus_bytes. induction s as [| c s IH]; [reflexivity |].
  cbn [quote_plus_each]. by rewrite unquote_byte, IH.
Qed.

Lemma quoted_char_no_separator (c : ascii) :
  quoted_char c = true -> is_not "=" c = true /\ is_not "&" c = true.
Proof.
  destruct c as [[] [] [] [] [] [] [] []]; vm_compute; intros H;
    first [by split | discriminate H].
Qed.

Lemma name_value_app (a b : string) :
  str_all (is_not "=") a = true -> Urllib.name_value (a +:+ "=" +:+ b) = (a, b).
Proof.
  induction a as [| c a IH]; [reflexivity |].
  rewrite str_all_cons. intros [Hc Ha]%andb_true_iff.
  rewrite append_cons. cbn [Urllib.name_value].
  unfold is_not in Hc. apply negb_true_iff in Hc. by rewrite Hc, (IH Ha).
Qed.

Lemma parse_pair_encoded (k v : string) :
  Urllib.parse_pair (Urllib.quote_plus k +:+ "=" +:+ Urllib.quote_plus v) = [(k, v)].
Proof.
  unfold Urllib.parse_pair.
  destruct (Urllib.quote_plus k +:+ "=" +:+ Urllib.quote_plus v) as [| x piece] eqn:E.
  { destruct (Urllib.quote_plus k); discriminate E. }
  rewrite <- E, name_value_app.
  - by rewrite !unquote_quote_plus.
  - apply (str_all_impl quoted_char); [| apply quote_plus_quoted].
    intros c Hc. by destruct (quoted_char_no_separator c Hc).
Qed.

Lemma parse_qsl_encoded (k v : string) :
  Urllib.parse_qsl (Urllib.quote_plus k +:+ "=" +:+ Urllib.quote_plus v) = [(k, v)].
Proof.
  unfold Urllib.parse_qsl. rewrite split_on_none.
  - cbn [map concat]. by rewrite parse_pair_encoded, app_nil_r.
  - assert (Hq : forall s, str_all (is_not "&") (Urllib.quote_plus s) = true).
    { intros s. apply (str_all_impl quoted_char); [| apply quote_plus_quoted].
      intros c Hc. by destruct (quoted_char_no_separator c Hc). }
    by rewrite !str_all_app, !Hq.
Qed.

(** [parse_qsl] reads back what [urlencode] wrote, for any keys and
    values. *)
Lemma parse_qsl_urlencode (l : list (string * string)) :
  Urllib.parse_qsl (Urllib.urlencode l) = l.
Proof.
  induction l as [| [k v] l IH]; [reflexivity |].
  destruct l as [| kv' l].
  - apply parse_qsl_encoded.
  - unfold Urllib.urlencode in *.
    change (map ?f ((k, v) :: kv' :: l)) with (f (k, v) :: map f (kv' :: l)).
    cbn beta. change (map ?f (kv' :: l)) with (f kv' :: map f l) in *.
    rewrite join_cons, parse_qsl_app, IH. cbn [fst snd].
    by rewrite parse_qsl_encoded.
Qed.

(** X17. The redirect of a login carries its four parameters intact:
    read back from the [location] header, the query string gives
    [response_type=code], the configured client id, the configured
    redirect URI and the state, whatever characters the two settings
    contain. *)
Theorem login_query_reads_back (settings : Settings) (rnd : nat -> Z) (w : World) :
  exists state r w',
    twitch_login settings rnd w = (Ok r, w') /\
    Urllib.parse_qsl (Urllib.query_of (location r)) =
    [("response_type", "code");
     ("client_id", TWITCH_CLIENT_ID settings);
     ("redirect_uri", REDIRECT_URI settings);
     ("state", state)].
Proof.
  destruct (twitch_login_run settings rnd w) as (state & _ & _ & _ & Hrun).
  exists state. do 2 eexists. split; [exact Hrun |].
  rewrite login_location with (settings := settings) (state := state) by reflexivity.
  cbn [url set_cookie RedirectResponse].
  change ("https://id.twitch.tv/oauth2/authorize?" +:+ ?q)
    with (AUTHORIZE_URL +:+ "?" +:+ q).
  unfold Urllib.query_of. rewrite before_none.
  2:{ rewrite !str_all_app. apply andb_true_iff. split; [reflexivity |].
      apply andb_true_iff. split; [reflexivity |].
      apply (str_all_impl query_char); [apply query_char_not_hash |].
      apply urlencode_chars. }
  change (Urllib.after "?" (AUTHORIZE_URL +:+ "?" +:+ ?q)) with q.
  apply parse_qsl_urlencode.
Qed.

(** ** The form of the code exchange *)

Lemma exchange_form_fields (settings : Settings) (code : string) :
  exchange_form settings code !! "code" = Some code /\
  exchange_form settings code !! "grant_type" = Some "authorization_code" /\
  exchange_form settings code !! "client_id" = Some (TWITCH_CLIENT_ID settings) /\
  exchange_form settings code !! "client_secret" = Some (TWITCH_CLIENT_SECRET settings) /\
  exchange_form settings code !! "redirect_uri" = Some (REDIRECT_URI settings) /\
  dom (exchange_form settings code)
  = ({["client_id"; "client_secret"; "code"; "grant_type"; "redirect_uri"]} : gset string).
Proof.
  unfold exchange_form.
  split; [rewrite !lookup_insert_ne by done; apply lookup_insert_eq |].
  split; [rewrite !lookup_insert_ne by done; apply lookup_insert_eq |].
  split; [apply lookup_insert_eq |].
  split; [rewrite !lookup_insert_ne by done; apply lookup_insert_eq |].
  split; [rewrite !lookup_insert_ne by done; apply lookup_insert_eq |].
  rewrite !dom_insert_L, dom_empty_L. set_solver.
Qed.

(** X18. The first thing a validated callback does is one POST to the
    token endpoint, whose form holds the [code] of the query string as it
    came, [grant_type=authorization_code], the client id, the client
    secret and the redirect URI of the settings, and no other field. *)
Theorem callback_posts_code (settings : Settings) (twitch : Provider)
    (request : Request) (code state : string) (w : World) :
  passes_validation request code state ->
  exists data answer rest,
    events_since w (route_callback settings twitch request w).2
      = EvPost TOKEN_URL data answer :: rest /\
    answer = token_endpoint twitch (log w) data /\
    data !! "code" = Some code /\
    data !! "grant_type" = Some "authorization_code" /\
    data !! "client_id" = Some (TWITCH_CLIENT_ID settings) /\
    data !! "client_secret" = Some (TWITCH_CLIENT_SECRET settings) /\
    data !! "redirect_uri" = Some (REDIRECT_URI settings) /\
    dom data
    = ({["client_id"; "client_secret"; "code"; "grant_type"; "redirect_uri"]} : gset string).
Proof.
  intros Hv.
  assert (Hfirst : exists rest,
            events_since w (route_callback settings twitch request w).2
            = token_call settings twitch code w :: rest).
  { by apply (route_callback_on_first Session.reliable settings twitch request code state). }
  destruct Hfirst as [rest Hfirst].
  exists (exchange_form settings code),
         (token_endpoint twitch (log w) (exchange_form settings code)), rest.
  split; [exact Hfirst |]. split; [reflexivity |].
  apply exchange_form_fields.
Qed.

Lemma callback_posts_code_witness :
  exists data answer rest,
    events_since Sample.world_with_bob
      (route_callback Sample.settings Sample.twitch Sample.good_request
         Sample.world_with_bob).2
      = EvPost TOKEN_URL data answer :: rest /\
    answer = token_endpoint Sample.twitch (log Sample.world_with_bob) data /\
    data !! "code" = Some "abc" /\
    data !! "grant_type" = Some "authorization_code" /\
    data !! "client_id" = Some (TWITCH_CLIENT_ID Sample.settings) /\
    data !! "client_secret" = Some (TWITCH_CLIENT_SECRET Sample.settings) /\
    data !! "redirect_uri" = Some (REDIRECT_URI Sample.settings) /\
    dom data
    = ({["client_id"; "client_secret"; "code"; "grant_type"; "redirect_uri"]} : gset string).
Proof.
  apply (callback_posts_code Sample.settings Sample.twitch Sample.good_request
           "abc" "xyz" Sample.world_with_bob).
  repeat split; try discriminate; vm_compute; reflexivity.
Defined.
